(** * The BPMN custom editor: [EditorManager] and [Editor]

    A shallow embedding of [src/features/editing/editorManager.ts].

    The extension is a set of event handlers registered with the host
    IDE.  The embedding keeps the handlers as state transformers on
    records that mirror the two classes, and lets the host drive them
    with explicit events.  What the host supplies (the webview URI
    conversion, [Uri.toString], [JSON.stringify], the clock, the result
    of [fs.stat]) enters as a class of host functions or as an argument
    of the event that carries it. *)

From Stdlib Require Import ZArith String Ascii DecimalString DecimalZ.
From stdpp Require Import base gmap sets list strings.

Local Open Scope string_scope.

(** ** Strings *)

Definition dquote : ascii := "034"%char.
Definition newline : ascii := "010"%char.
Definition tab : ascii := "009"%char.

Definition str (c : ascii) : string := String c EmptyString.

(** [Number.prototype.toString] on an integral number such as the one
    [Date.now()] returns: the decimal digits, with a leading minus sign
    for a negative one. *)
Definition Number_toString (n : Z) : string :=
  NilEmpty.string_of_int (Z.to_int n).

(** JavaScript truthiness of a string: only the empty string is falsy. *)
Definition truthy (s : string) : bool :=
  match s with
  | EmptyString => false
  | String _ _ => true
  end.

(** [escapeAttribute]: every double quote of [value.toString()] becomes
    the entity [&quot;]. *)
Fixpoint escapeAttribute (value : string) : string :=
  match value with
  | EmptyString => EmptyString
  | String c rest =>
      if Ascii.eqb c dquote
      then "&quot;" +:+ escapeAttribute rest
      else String c (escapeAttribute rest)
  end.

(** ** Host data *)

(** [vscode.Uri]: its five components. *)
Record Uri := mkUri {
  scheme : string;
  authority : string;
  path : string;
  query : string;
  fragment : string;
}.

(** [uri.with({ query })] *)
Definition Uri_with_query (u : Uri) (q : string) : Uri :=
  {| scheme := scheme u; authority := authority u; path := path u;
     query := q; fragment := fragment u |}.

(** [vscode.FileStat], of which the code reads [size] only. *)
Record FileStat := { size : Z }.

(** A settled promise. *)
Inductive Outcome (A : Type) : Type :=
| Fulfilled (value : A)
| Rejected (reason : string).
Arguments Fulfilled {A} value.
Arguments Rejected {A} reason.

(** [await p] followed by the rest of an [async] function: a rejection
    leaves the function at once and rejects its own promise. *)
Definition await {A B : Type} (p : Outcome A) (k : A -> Outcome B) : Outcome B :=
  match p with
  | Fulfilled v => k v
  | Rejected r => Rejected r
  end.

#[global] Instance Outcome_ret : MRet Outcome := fun A v => Fulfilled v.
#[global] Instance Outcome_bind : MBind Outcome := fun A B k p => await p k.

(** [p.then(onFulfilled)], with no rejection handler, run against a state
    [S] that the callback may change.  The callback runs for a fulfilled
    promise only; a rejection passes to the derived promise, which is the
    second component. *)
Definition promise_then {A S : Type} (p : Outcome A) (onFulfilled : A -> S -> S)
    (s : S) : S * Outcome unit :=
  match p with
  | Fulfilled v => (onFulfilled v s, Fulfilled tt)
  | Rejected r => (s, Rejected r)
  end.

(** The file system as [vscode.workspace.fs.stat] sees it. *)
Definition FileSystem : Type := Uri -> Outcome FileStat.

(** The argument of [JSON.stringify] in [getWebiewContents]. *)
Record Settings := { isMac : bool; src : string }.

(** What the host and the JavaScript runtime provide. *)
Class Host := {
  (** [webview.asWebviewUri] *)
  asWebviewUri : Uri -> Uri;
  (** [uri.toString(skipEncoding)] *)
  Uri_toString : bool -> Uri -> string;
  (** [JSON.stringify] on the settings object *)
  JSON_stringify : Settings -> string;
  (** [webview.cspSource] *)
  cspSource : string;
  (** [process.platform] *)
  process_platform : string;
}.

(** [{ type: 'setActive', value }] *)
Record Message := { type : string; value : bool }.

(** [webview.options] *)
Record WebviewOptions := {
  enableScripts : bool;
  localResourceRoots : list Uri;
}.

(** [vscode.WebviewPanel] with its webview, as far as the code touches
    it.  [html] and [posted] keep every assignment to [webview.html] and
    every [postMessage], most recent first; [disposeCalls] counts the
    calls of [dispose()] on the panel. *)
Record WebviewPanel := {
  active : bool;
  options : option WebviewOptions;
  html : list string;
  posted : list Message;
  disposeCalls : nat;
}.

(** A panel as the host hands it over. *)
Definition fresh_panel (isActive : bool) : WebviewPanel :=
  {| active := isActive; options := None; html := []; posted := [];
     disposeCalls := 0 |}.

(** ** The editor *)

(** [const enum PreviewState] *)
Inductive PreviewState : Type := Disposed | Visible | Active.

Definition PreviewState_eqb (a b : PreviewState) : bool :=
  match a, b with
  | Disposed, Disposed | Visible, Visible | Active, Active => true
  | _, _ => false
  end.

(** What the constructor hands to [_register]: the four subscriptions and
    the file system watcher. *)
Inductive Resource : Type :=
| ViewStateListener
| DisposeListener
| FileSystemWatcher
| ChangeListener
| DeleteListener.

(** A computation of the editor that waits for the event loop: the
    [then] callback of the [stat] probe, or a [render] call suspended in
    [getWebiewContents], which has read the clock for [version] already. *)
Inductive Task : Type :=
| StatProbe
| Rendering (versionClock : Z).

(** Method entries, for the record of invocations. *)
Inductive Call : Type := CallRender | CallUpdate.

(** An [Editor] object.  [_disposables] and [released] belong to the
    [Disposable] base class and to the resources it tracks; [pending] is
    the editor's share of the event loop; [calls] is instrumentation: it
    lists the entries into [render] and [update], most recent first, and
    no method reads it. *)
Record Editor := {
  extensionRoot : Uri;
  resource : Uri;
  webviewEditor : WebviewPanel;
  _editorState : PreviewState;
  _disposables : list Resource;
  released : list Resource;
  pending : list Task;
  calls : list Call;
}.

Definition with_panel (p : WebviewPanel) (e : Editor) : Editor :=
  {| extensionRoot := extensionRoot e; resource := resource e;
     webviewEditor := p; _editorState := _editorState e;
     _disposables := _disposables e; released := released e;
     pending := pending e; calls := calls e |}.

Definition with_state (st : PreviewState) (e : Editor) : Editor :=
  {| extensionRoot := extensionRoot e; resource := resource e;
     webviewEditor := webviewEditor e; _editorState := st;
     _disposables := _disposables e; released := released e;
     pending := pending e; calls := calls e |}.

Definition with_pending (ts : list Task) (e : Editor) : Editor :=
  {| extensionRoot := extensionRoot e; resource := resource e;
     webviewEditor := webviewEditor e; _editorState := _editorState e;
     _disposables := _disposables e; released := released e;
     pending := ts; calls := calls e |}.

Definition with_calls (cs : list Call) (e : Editor) : Editor :=
  {| extensionRoot := extensionRoot e; resource := resource e;
     webviewEditor := webviewEditor e; _editorState := _editorState e;
     _disposables := _disposables e; released := released e;
     pending := pending e; calls := cs |}.

Definition with_disposables (ds rs : list Resource) (e : Editor) : Editor :=
  {| extensionRoot := extensionRoot e; resource := resource e;
     webviewEditor := webviewEditor e; _editorState := _editorState e;
     _disposables := ds; released := rs;
     pending := pending e; calls := calls e |}.

Definition entered (c : Call) (e : Editor) : Editor :=
  with_calls (c :: calls e) e.

(** The continuation joins the end of the queue. *)
Definition suspend (t : Task) (e : Editor) : Editor :=
  with_pending (pending e ++ [t]) e.

(** *** The panel's side *)

Definition set_active (b : bool) (p : WebviewPanel) : WebviewPanel :=
  {| active := b; options := options p; html := html p; posted := posted p;
     disposeCalls := disposeCalls p |}.

Definition set_options (o : WebviewOptions) (p : WebviewPanel) : WebviewPanel :=
  {| active := active p; options := Some o; html := html p;
     posted := posted p; disposeCalls := disposeCalls p |}.

Definition set_html (h : string) (p : WebviewPanel) : WebviewPanel :=
  {| active := active p; options := options p; html := h :: html p;
     posted := posted p; disposeCalls := disposeCalls p |}.

Definition postMessage (m : Message) (p : WebviewPanel) : WebviewPanel :=
  {| active := active p; options := options p; html := html p;
     posted := m :: posted p; disposeCalls := disposeCalls p |}.

Definition panel_dispose (p : WebviewPanel) : WebviewPanel :=
  {| active := active p; options := options p; html := html p;
     posted := posted p; disposeCalls := S (disposeCalls p) |}.

(** [this.webviewEditor.webview.postMessage({ type: 'setActive',
    value: this.webviewEditor.active })] *)
Definition postSetActive (e : Editor) : Editor :=
  with_panel
    (postMessage {| type := "setActive"; value := active (webviewEditor e) |}
       (webviewEditor e)) e.

(** *** The [Disposable] base class *)

(** Modelled from the spec: the base class [Disposable] of
    [../../dispose], which is not among the sources.  The spec calls it a
    shared disposal-tracking helper that each registered listener or
    watcher is attached to, a base class collecting cleanup actions, by
    which the resources are released en masse.  [_register] attaches a
    resource and hands it back; [dispose] releases everything attached. *)
Definition _register (r : Resource) (e : Editor) : Editor :=
  with_disposables (_disposables e ++ [r]) (released e) e.

(** Modelled from the spec: the release en masse of what [_register]
    has attached, the [dispose] of the same base class. *)
Definition dispose (e : Editor) : Editor :=
  with_disposables [] (released e ++ _disposables e) e.

(** *** The resource root *)

(** The class [\w] of the regular expression. *)
Definition is_word (c : ascii) : bool :=
  let n := nat_of_ascii c in
  ((48 <=? n)%nat && (n <=? 57)%nat) || ((65 <=? n)%nat && (n <=? 90)%nat)
  || ((97 <=? n)%nat && (n <=? 122)%nat) || (n =? 95)%nat.

Fixpoint all_word (s : string) : bool :=
  match s with
  | EmptyString => true
  | String c rest => is_word c && all_word rest
  end.

(** Some dot of [s] is followed by one or more word characters that
    reach the end of [s]. *)
Fixpoint has_extension (s : string) : bool :=
  match s with
  | EmptyString => false
  | String c rest =>
      (Ascii.eqb c "."%char && truthy rest && all_word rest) || has_extension rest
  end.

(** The text before and after the last slash of [s]. *)
Fixpoint split_last_slash (s : string) : option (string * string) :=
  match s with
  | EmptyString => None
  | String c rest =>
      match split_last_slash rest with
      | Some (before, after) => Some (String c before, after)
      | None => if Ascii.eqb c "/"%char then Some (EmptyString, rest) else None
      end
  end.

(** [path.replace(/\/[^\/]+?\.\w+$/, '/')]: a match starts at a slash that
    no other slash follows, so at the last one, and takes one character
    or more, a dot, and word characters up to the end. *)
Definition replace_file_name (p : string) : string :=
  match split_last_slash p with
  | Some (before, String _ rest) =>
      if has_extension rest then before +:+ "/" else p
  | _ => p
  end.

Definition resourceRoot (resource : Uri) : Uri :=
  {| scheme := scheme resource; authority := authority resource;
     path := replace_file_name (path resource);
     query := query resource; fragment := fragment resource |}.

(** *** Rendering *)

Definition emptyPngDataUri : string :=
  "data:image/png;base64,iVBORw0KGgoAAAANSUhEUgAAAAEAAAABCAYAAAAfFcSJAAAAEElEQVR42gEFAPr/AP///wAI/AL+Sr4t6gAAAABJRU5ErkJggg==".

Definition quoted (s : string) : string := str dquote +:+ s +:+ str dquote.

(** The template literal of [getWebiewContents]. *)
Definition document (csp nonce settings : string) : string :=
  String.concat (str newline)
    [ "<!DOCTYPE html>";
      "<html lang=" +:+ quoted "en" +:+ ">";
      "<head>";
      str tab +:+ "<meta charset=" +:+ quoted "UTF-8" +:+ ">";
      EmptyString;
      str tab +:+ "<!-- Disable pinch zooming -->";
      str tab +:+ "<meta name=" +:+ quoted "viewport";
      str tab +:+ str tab +:+ "content="
        +:+ quoted "width=device-width, initial-scale=1.0, maximum-scale=1.0, minimum-scale=1.0, user-scalable=no"
        +:+ ">";
      EmptyString;
      str tab +:+ "<title>foo</title";
      EmptyString;
      str tab +:+ "<meta http-equiv=" +:+ quoted "Content-Security-Policy"
        +:+ " content="
        +:+ quoted ("default-src 'none'; img-src 'self' data: " +:+ csp
                    +:+ "; script-src 'nonce-" +:+ nonce
                    +:+ "'; style-src 'self' 'nonce-" +:+ nonce +:+ "';")
        +:+ ">";
      str tab +:+ "<meta id=" +:+ quoted "image-preview-settings"
        +:+ " data-settings=" +:+ quoted settings +:+ ">";
      "</head>";
      "<body>";
      str tab +:+ "Hello world";
      "</body>";
      "</html>" ].

Section Methods.
Context `{Host}.

(** [getResourcePath].  The panel argument of the source serves only
    to reach [asWebviewUri], which is the host's here.  [fs] answers
    the [stat] call, which happens for the [git] scheme only. *)
Definition getResourcePath (resource : Uri) (version : string)
    (fs : FileSystem) : Outcome string :=
  placeholder ←
    (if String.eqb (scheme resource) "git"
     then stat ← fs resource; mret (Z.eqb (size stat) 0)
     else mret false);
  if placeholder : bool then mret emptyPngDataUri
  else if truthy (query resource)
  then mret (Uri_toString true (asWebviewUri resource))
  else mret (Uri_toString true
               (Uri_with_query (asWebviewUri resource) ("version=" +:+ version))).

(** [getWebiewContents].  The clock is read twice: for [version] when
    the function is entered, for [nonce] once the resource path has
    arrived. *)
Definition getWebiewContents (e : Editor) (versionClock : Z)
    (fs : FileSystem) (nonceClock : Z) : Outcome string :=
  let version := Number_toString versionClock in
  src ← getResourcePath (resource e) version fs;
  let settings :=
    {| isMac := String.eqb process_platform "darwin"; src := src |} in
  let nonce := Number_toString nonceClock in
  mret (document cspSource nonce (escapeAttribute (JSON_stringify settings))).

(** [render], up to its [await]: the state test, then the call of
    [getWebiewContents], which reads the clock and suspends. *)
Definition render (now : Z) (e : Editor) : Editor :=
  let e := entered CallRender e in
  if negb (PreviewState_eqb (_editorState e) Disposed)
  then suspend (Rendering now) e
  else e.

(** [render] after its [await]: the assignment to [webview.html], or
    nothing when [getWebiewContents] was rejected. *)
Definition render_resume (versionClock : Z) (fs : FileSystem) (now : Z)
    (e : Editor) : Editor :=
  match getWebiewContents e versionClock fs now with
  | Fulfilled contents => with_panel (set_html contents (webviewEditor e)) e
  | Rejected _ => e
  end.

(** [update].  The empty conditional of the source, entered when the
    state was [Active], does nothing. *)
Definition update (e : Editor) : Editor :=
  let e := entered CallUpdate e in
  if PreviewState_eqb (_editorState e) Disposed then e
  else if active (webviewEditor e) then with_state Active e
  else with_state Visible e.

(** *** The handlers the constructor registers *)

Definition onDidChangeViewState (e : Editor) : Editor :=
  postSetActive (update e).

Definition onDidDispose (e : Editor) : Editor :=
  with_state Disposed e.

Definition onDidChange (uri : Uri) (now : Z) (e : Editor) : Editor :=
  if String.eqb (Uri_toString false uri) (Uri_toString false (resource e))
  then render now e
  else e.

Definition onDidDelete (uri : Uri) (e : Editor) : Editor :=
  if String.eqb (Uri_toString false uri) (Uri_toString false (resource e))
  then with_panel (panel_dispose (webviewEditor e)) e
  else e.

(** [vscode.workspace.fs.stat(resource).then(() => { this.update(); })]
    once the probe has settled. *)
Definition probe_settled (probe : Outcome FileStat) (e : Editor) : Editor :=
  fst (promise_then probe (fun _ => update) e).

(** *** The constructor *)

Definition Editor_new (extensionRoot resource : Uri)
    (webviewEditor : WebviewPanel) (now : Z) : Editor :=
  let webviewEditor :=
    set_options {| enableScripts := true;
                   localResourceRoots := [resourceRoot resource; extensionRoot] |}
      webviewEditor in
  let this :=
    {| extensionRoot := extensionRoot; resource := resource;
       webviewEditor := webviewEditor; _editorState := Visible;
       _disposables := []; released := []; pending := []; calls := [] |} in
  let this := _register ViewStateListener this in
  let this := _register DisposeListener this in
  let this := _register FileSystemWatcher this in
  let this := _register ChangeListener this in
  let this := _register DeleteListener this in
  let this := suspend StatProbe this in
  let this := render now this in
  let this := update this in
  postSetActive this.

(** *** The events of one editor *)

(** What the host and the event loop deliver to an editor.  A view
    state change carries the value the panel's [active] has from then
    on; a watcher event carries the URI it reports; [Resume i fs now]
    continues the [i]-th suspended computation, with the file system
    and the clock of that moment. *)
Inductive Event : Type :=
| DidChangeViewState (nowActive : bool)
| DidDispose
| WatcherDidChange (uri : Uri) (now : Z)
| WatcherDidDelete (uri : Uri)
| Resume (i : nat) (fs : FileSystem) (now : Z).

Definition resume (i : nat) (fs : FileSystem) (now : Z) (e : Editor) : Editor :=
  match pending e !! i with
  | None => e
  | Some t =>
      let e := with_pending (delete i (pending e)) e in
      match t with
      | StatProbe => probe_settled (fs (resource e)) e
      | Rendering versionClock => render_resume versionClock fs now e
      end
  end.

Definition deliver (ev : Event) (e : Editor) : Editor :=
  match ev with
  | DidChangeViewState nowActive =>
      onDidChangeViewState (with_panel (set_active nowActive (webviewEditor e)) e)
  | DidDispose => onDidDispose e
  | WatcherDidChange uri now => onDidChange uri now e
  | WatcherDidDelete uri => onDidDelete uri e
  | Resume i fs now => resume i fs now e
  end.

(** The events of [evs] in order, the head first. *)
Definition run (evs : list Event) (e : Editor) : Editor :=
  foldl (fun e ev => deliver ev e) e evs.

End Methods.

(** ** The manager *)

(** [vscode.commands.executeCommand(command, key, value)] *)
Record Command := { command : string; key : string; arg : bool }.

(** An [EditorManager] with the [Editor] objects it has created.  An
    editor is known by its identity, which is its place in [objects]:
    [new Editor] appends, and nothing removes.  [_editors] and
    [_activeEditor] hold identities, as the [Set<Editor>] and the
    reference of the source do.  [commands] keeps the calls of
    [executeCommand], most recent first. *)
Record EditorManager := {
  manager_extensionRoot : Uri;
  objects : list Editor;
  _editors : gset nat;
  _activeEditor : option nat;
  commands : list Command;
}.

Definition EditorManager_new (extensionRoot : Uri) : EditorManager :=
  {| manager_extensionRoot := extensionRoot; objects := []; _editors := ∅;
     _activeEditor := None; commands := [] |}.

Definition with_objects (os : list Editor) (m : EditorManager) : EditorManager :=
  {| manager_extensionRoot := manager_extensionRoot m; objects := os;
     _editors := _editors m; _activeEditor := _activeEditor m;
     commands := commands m |}.

Definition with_editors (s : gset nat) (m : EditorManager) : EditorManager :=
  {| manager_extensionRoot := manager_extensionRoot m; objects := objects m;
     _editors := s; _activeEditor := _activeEditor m;
     commands := commands m |}.

Definition with_activeEditor (a : option nat) (m : EditorManager) : EditorManager :=
  {| manager_extensionRoot := manager_extensionRoot m; objects := objects m;
     _editors := _editors m; _activeEditor := a; commands := commands m |}.

Definition executeCommand (c : Command) (m : EditorManager) : EditorManager :=
  {| manager_extensionRoot := manager_extensionRoot m; objects := objects m;
     _editors := _editors m; _activeEditor := _activeEditor m;
     commands := c :: commands m |}.

Definition setPreviewActiveContext (value : bool) (m : EditorManager) : EditorManager :=
  executeCommand
    {| command := "setContext"; key := "bpmnEditorFocus"; arg := value |} m.

(** [!!value] on [Editor | undefined] *)
Definition defined {A : Type} (value : option A) : bool :=
  match value with
  | Some _ => true
  | None => false
  end.

Definition setActiveEditor (value : option nat) (m : EditorManager) : EditorManager :=
  setPreviewActiveContext (defined value) (with_activeEditor value m).

(** [get activeEditor()] *)
Definition activeEditor (m : EditorManager) : option nat := _activeEditor m.

(** [this._activeEditor === editor] *)
Definition is_active (editor : nat) (m : EditorManager) : bool :=
  match _activeEditor m with
  | Some a => Nat.eqb a editor
  | None => false
  end.

Section Manager.
Context `{Host}.

(** The two handlers [resolveCustomTextEditor] arms.  [panelActive] is
    [webviewEditor.active] as the handler reads it. *)
Definition manager_onDidDispose (editor : nat) (m : EditorManager) : EditorManager :=
  with_editors (_editors m ∖ {[editor]}) m.

Definition manager_onDidChangeViewState (editor : nat) (panelActive : bool)
    (m : EditorManager) : EditorManager :=
  if panelActive then setActiveEditor (Some editor) m
  else if is_active editor m && negb panelActive then setActiveEditor None m
  else m.

(** [resolveCustomTextEditor]: the new editor takes the next identity. *)
Definition resolveCustomTextEditor (document : Uri)
    (webviewEditor : WebviewPanel) (now : Z) (m : EditorManager) : EditorManager :=
  let editor := length (objects m) in
  let m :=
    with_objects
      (objects m ++ [Editor_new (manager_extensionRoot m) document webviewEditor now])
      m in
  let m := with_editors ({[editor]} ∪ _editors m) m in
  setActiveEditor (Some editor) m.

(** What the host does with a manager: it opens a document in a panel
    of its own making, or an event reaches the editor [editor] and its
    panel.  The editor's handlers were registered first, in its
    constructor, and run before the manager's. *)
Inductive HostEvent : Type :=
| Open (document : Uri) (webviewEditor : WebviewPanel) (now : Z)
| Panel (editor : nat) (ev : Event).

Definition host_step (hev : HostEvent) (m : EditorManager) : EditorManager :=
  match hev with
  | Open document webviewEditor now =>
      resolveCustomTextEditor document webviewEditor now m
  | Panel editor ev =>
      match objects m !! editor with
      | None => m
      | Some e =>
          let e := deliver ev e in
          let m := with_objects (<[editor := e]> (objects m)) m in
          match ev with
          | DidChangeViewState _ =>
              manager_onDidChangeViewState editor (active (webviewEditor e)) m
          | DidDispose => manager_onDidDispose editor m
          | _ => m
          end
      end
  end.

Definition host_run (hevs : list HostEvent) (m : EditorManager) : EditorManager :=
  foldl (fun m hev => host_step hev m) m hevs.

End Manager.

(** ** A host to run examples on *)

Definition example_toString (skipEncoding : bool) (u : Uri) : string :=
  scheme u +:+ "://" +:+ authority u +:+ path u
  +:+ (if truthy (query u) then "?" +:+ query u else EmptyString)
  +:+ (if truthy (fragment u) then "#" +:+ fragment u else EmptyString).

Definition example_stringify (s : Settings) : string :=
  "{" +:+ quoted "isMac" +:+ ":" +:+ (if isMac s then "true" else "false")
  +:+ "," +:+ quoted "src" +:+ ":" +:+ quoted (src s) +:+ "}".

Definition example_host : Host :=
  {| asWebviewUri u :=
       {| scheme := "vscode-resource"; authority := authority u;
          path := path u; query := query u; fragment := fragment u |};
     Uri_toString := example_toString;
     JSON_stringify := example_stringify;
     cspSource := "vscode-resource:";
     process_platform := "linux" |}.

Definition file_uri (p : string) : Uri :=
  {| scheme := "file"; authority := EmptyString; path := p;
     query := EmptyString; fragment := EmptyString |}.

Definition git_uri (p q : string) : Uri :=
  {| scheme := "git"; authority := EmptyString; path := p;
     query := q; fragment := EmptyString |}.

Definition diagram : Uri := file_uri "/work/order.bpmn".
Definition extension_dir : Uri := file_uri "/ext/bpmn-io".

(** A file system on which every [stat] reports [n] bytes, and one on
    which every [stat] fails. *)
Definition fs_sized (n : Z) : FileSystem := fun _ => Fulfilled {| size := n |}.
Definition fs_missing : FileSystem := fun _ => Rejected "FileNotFound".

(** An editor and a manager on that host. *)
Definition example_editor : Editor :=
  Editor_new extension_dir diagram (fresh_panel true) 1000.

Definition example_manager : EditorManager := EditorManager_new extension_dir.

(** Two change events for the diagram within one millisecond, and the
    two renders they started running to their end. *)
Definition burst : list Event :=
  [WatcherDidChange diagram 2000; WatcherDidChange diagram 2000;
   Resume 2 (fs_sized 7) 2001; Resume 2 (fs_sized 7) 2002].

(** The host opens the diagram and closes its panel. *)
Definition open_and_close : list HostEvent :=
  [Open diagram (fresh_panel true) 1000; Panel 0 DidDispose].

(** The page of the example host for the diagram at the version [v],
    with the nonce [n]. *)
Definition example_page (v n : string) : string :=
  document "vscode-resource:" n
    (escapeAttribute
       (example_stringify
          {| isMac := false;
             src := "vscode-resource:///work/order.bpmn?version=" +:+ v |})).

(** ** What the properties speak of *)

Definition is_dispose (ev : Event) : bool :=
  match ev with
  | DidDispose => true
  | _ => false
  end.

(** A disposal notification is among [evs]. *)
Definition disposal_delivered (evs : list Event) : bool := existsb is_dispose evs.

(** The focus the panel reported last: the value of the last view state
    change of [evs], or [initial], the one it had before them. *)
Fixpoint last_focus (initial : bool) (evs : list Event) : bool :=
  match evs with
  | [] => initial
  | DidChangeViewState nowActive :: rest => last_focus nowActive rest
  | _ :: rest => last_focus initial rest
  end.

(** An editor without the instrumentation: what the program and the
    host can tell apart. *)
Definition observable (e : Editor) : Editor := with_calls [] e.

Definition Call_eqb (a b : Call) : bool :=
  match a, b with
  | CallRender, CallRender | CallUpdate, CallUpdate => true
  | _, _ => false
  end.

(** How often the method [c] was entered. *)
Fixpoint count_calls (c : Call) (cs : list Call) : nat :=
  match cs with
  | [] => 0
  | c' :: rest => (if Call_eqb c' c then 1 else 0) + count_calls c rest
  end.

Definition entries (c : Call) (e : Editor) : nat := count_calls c (calls e).

(** The state agrees with the panel's focus, unless the editor is
    disposed. *)
Definition in_step (e : Editor) : Prop :=
  _editorState e = Disposed
  ∨ _editorState e = (if active (webviewEditor e) then Active else Visible).

(** The URL [getResourcePath] computes with cache busting. *)
Definition versioned_url `{Host} (resource : Uri) (version : string) : string :=
  Uri_toString true (Uri_with_query (asWebviewUri resource) ("version=" +:+ version)).

(** The size probe of [getResourcePath] does not stand in the way of a
    URL: it is not made, or it reports a size other than zero. *)
Definition no_placeholder (resource : Uri) (fs : FileSystem) : Prop :=
  String.eqb (scheme resource) "git" = false
  ∨ ∃ stat, fs resource = Fulfilled stat ∧ Z.eqb (size stat) 0 = false.

(** The editor [editor] of the manager [m] has seen its panel disposed. *)
Definition editor_disposed (editor : nat) (m : EditorManager) : Prop :=
  ∃ e, objects m !! editor = Some e ∧ _editorState e = Disposed.

(** Every editor the manager has created is in its set or disposed, and
    the active reference points at one of them. *)
Definition managed (m : EditorManager) : Prop :=
  (∀ editor e, objects m !! editor = Some e →
     editor ∈ _editors m ∨ _editorState e = Disposed)
  ∧ (∀ editor, _activeEditor m = Some editor → editor < length (objects m)).

Definition setContext_focus (b : bool) : Command :=
  {| command := "setContext"; key := "bpmnEditorFocus"; arg := b |}.

(** A call of [render], at a clock reading, or of [update]. *)
Definition invoke (e : Editor) (c : Call * Z) : Editor :=
  match c with
  | (CallRender, now) => render now e
  | (CallUpdate, _) => update e
  end.

Definition all_resources : list Resource :=
  [ViewStateListener; DisposeListener; FileSystemWatcher; ChangeListener;
   DeleteListener].

(** ** The rest of the editor *)

(** [uri.with({ path })] *)
Definition Uri_with_path (u : Uri) (p : string) : Uri :=
  {| scheme := scheme u; authority := authority u; path := p;
     query := query u; fragment := fragment u |}.

(** [extensionResource]: the webview URI of a file of the extension. *)
Definition extensionResource `{Host} (p : string) (e : Editor) : Uri :=
  asWebviewUri
    (Uri_with_path (extensionRoot e) (path (extensionRoot e) +:+ p)).

(** ** What the further properties speak of *)

(** The string holds a double quote. *)
Fixpoint has_dquote (s : string) : bool :=
  match s with
  | EmptyString => false
  | String c rest => Ascii.eqb c dquote || has_dquote rest
  end.

(** The focus values of the view state changes of [evs], in order. *)
Fixpoint focus_values (evs : list Event) : list bool :=
  match evs with
  | [] => []
  | DidChangeViewState nowActive :: rest => nowActive :: focus_values rest
  | _ :: rest => focus_values rest
  end.

Definition setActive_message (b : bool) : Message :=
  {| type := "setActive"; value := b |}.

(** The suspended renders among the tasks. *)
Fixpoint renders_pending (ts : list Task) : nat :=
  match ts with
  | [] => 0
  | Rendering _ :: rest => S (renders_pending rest)
  | StatProbe :: rest => renders_pending rest
  end.

(** The assignments to the HTML and the renders still suspended do not
    outnumber the entries into [render]. *)
Definition html_accounted (base : nat) (e : Editor) : Prop :=
  (length (html (webviewEditor e)) + renders_pending (pending e)
   ≤ base + entries CallRender e)%nat.

(** The delete events of [evs] whose URI prints as [resource] does. *)
Fixpoint matching_deletes `{Host} (resource : Uri) (evs : list Event) : nat :=
  match evs with
  | [] => 0
  | WatcherDidDelete uri :: rest =>
      (if String.eqb (Uri_toString false uri) (Uri_toString false resource)
       then 1 else 0) + matching_deletes resource rest
  | _ :: rest => matching_deletes resource rest
  end.

(** The change events of [evs] whose URI prints as [resource] does. *)
Fixpoint matching_changes `{Host} (resource : Uri) (evs : list Event) : nat :=
  match evs with
  | [] => 0
  | WatcherDidChange uri _ :: rest =>
      (if String.eqb (Uri_toString false uri) (Uri_toString false resource)
       then 1 else 0) + matching_changes resource rest
  | _ :: rest => matching_changes resource rest
  end.

(** The probes among the tasks. *)
Fixpoint probes_pending (ts : list Task) : nat :=
  match ts with
  | [] => 0
  | StatProbe :: rest => S (probes_pending rest)
  | Rendering _ :: rest => probes_pending rest
  end.

(** An editor on a resource of the [git] scheme, and a manager with two
    editors open. *)
Definition git_editor : Editor :=
  Editor_new extension_dir (git_uri "/work/order.bpmn" "ref=HEAD")
    (fresh_panel true) 1000.

Definition two_open : EditorManager :=
  host_run (H:=example_host)
    [Open diagram (fresh_panel true) 1000;
     Open (file_uri "/work/invoice.bpmn") (fresh_panel true) 1500]
    example_manager.

(** The set holds exactly the editors that are not disposed, and every
    editor agrees with its panel. *)
Definition live_set (m : EditorManager) : Prop :=
  (∀ editor, editor ∈ _editors m
     ↔ ∃ e, objects m !! editor = Some e ∧ _editorState e ≠ Disposed)
  ∧ (∀ editor e, objects m !! editor = Some e → in_step e).

(** The context flag broadcast last says whether there is an active
    editor; before any broadcast there is none. *)
Definition flag_in_step (m : EditorManager) : Prop :=
  match commands m with
  | [] => _activeEditor m = None
  | c :: _ => c = setContext_focus (defined (_activeEditor m))
  end.

(** * Properties *)

(** ** One editor: the life cycle *)

(** ** Strings and paths *)

Example resourceRoot_of_diagram :
  path (resourceRoot diagram) = "/work/".
Proof. reflexivity. Qed.

Example resourceRoot_without_extension :
  path (resourceRoot (file_uri "/work/.gitignore")) = "/work/.gitignore"
  ∧ path (resourceRoot (file_uri "/work/notes")) = "/work/notes".
Proof. split; reflexivity. Qed.

Lemma escapeAttribute_app a b :
  escapeAttribute (a +:+ b) = escapeAttribute a +:+ escapeAttribute b.
Proof.
  induction a as [|c a IH]; [reflexivity|].
  change (escapeAttribute (String c a +:+ b))
    with (if Ascii.eqb c dquote
          then "&quot;" +:+ escapeAttribute (a +:+ b)
          else String c (escapeAttribute (a +:+ b))).
  rewrite IH. destruct (Ascii.eqb c dquote) eqn:Hc; cbn; rewrite Hc; reflexivity.
Qed.

Example escapeAttribute_quotes :
  escapeAttribute (quoted "src") = "&quot;src&quot;".
Proof. reflexivity. Qed.

(** Opens an editor record, so that every projection computes. *)
Ltac open_editor e :=
  let st := fresh "st" in
  let focus := fresh "focus" in
  destruct e as [? ? [focus ? ? ? ?] st ? ? ? ?]; simpl in *.

Section EditorFacts.
Context `{Host}.

Lemma update_state e :
  _editorState (update e) =
    match _editorState e with
    | Disposed => Disposed
    | _ => if active (webviewEditor e) then Active else Visible
    end.
Proof. open_editor e. destruct st, focus; reflexivity. Qed.

Lemma update_panel e : webviewEditor (update e) = webviewEditor e.
Proof. open_editor e. destruct st, focus; reflexivity. Qed.

Lemma render_state now e : _editorState (render now e) = _editorState e.
Proof. open_editor e. destruct st; reflexivity. Qed.

Lemma render_panel now e : webviewEditor (render now e) = webviewEditor e.
Proof. open_editor e. destruct st; reflexivity. Qed.

Lemma render_resume_state v fs now e :
  _editorState (render_resume v fs now e) = _editorState e.
Proof. unfold render_resume. destruct (getWebiewContents e v fs now); reflexivity. Qed.

Lemma render_resume_active v fs now e :
  active (webviewEditor (render_resume v fs now e)) = active (webviewEditor e).
Proof. unfold render_resume. destruct (getWebiewContents e v fs now); reflexivity. Qed.

Lemma update_in_step e : in_step e → _editorState (update e) = _editorState e.
Proof.
  intros [Hd | Hs]; rewrite update_state.
  - rewrite Hd. reflexivity.
  - rewrite Hs. destruct (active (webviewEditor e)); reflexivity.
Qed.

(** The state after one event. *)
Lemma deliver_state ev e :
  in_step e →
  _editorState (deliver ev e) =
    match ev, _editorState e with
    | DidDispose, _ => Disposed
    | _, Disposed => Disposed
    | DidChangeViewState nowActive, _ => if nowActive then Active else Visible
    | _, st => st
    end.
Proof.
  intros Hs. destruct ev as [b | | uri now | uri | i fs now]; simpl.
  - unfold onDidChangeViewState. simpl. rewrite update_state. simpl.
    destruct (_editorState e); reflexivity.
  - reflexivity.
  - unfold onDidChange.
    destruct (String.eqb _ _); [rewrite render_state|]; destruct (_editorState e); reflexivity.
  - unfold onDidDelete.
    destruct (String.eqb _ _); simpl; destruct (_editorState e); reflexivity.
  - unfold resume. destruct (pending e !! i) as [[|v]|]; simpl.
    + unfold probe_settled, promise_then.
      destruct (fs (resource e)); simpl.
      * rewrite update_in_step; [simpl; destruct (_editorState e); reflexivity|exact Hs].
      * destruct (_editorState e); reflexivity.
    + rewrite render_resume_state. simpl. destruct (_editorState e); reflexivity.
    + destruct (_editorState e); reflexivity.
Qed.

(** The panel's focus after one event. *)
Lemma deliver_active ev e :
  active (webviewEditor (deliver ev e)) =
    match ev with
    | DidChangeViewState nowActive => nowActive
    | _ => active (webviewEditor e)
    end.
Proof.
  destruct ev as [b | | uri now | uri | i fs now]; simpl.
  - unfold onDidChangeViewState. simpl. rewrite update_panel. reflexivity.
  - reflexivity.
  - unfold onDidChange. destruct (String.eqb _ _); [rewrite render_panel|]; reflexivity.
  - unfold onDidDelete. destruct (String.eqb _ _); reflexivity.
  - unfold resume. destruct (pending e !! i) as [[|v]|]; simpl.
    + unfold probe_settled, promise_then.
      destruct (fs (resource e)); simpl; [rewrite update_panel|]; reflexivity.
    + rewrite render_resume_active. reflexivity.
    + reflexivity.
Qed.

Lemma deliver_in_step ev e : in_step e → in_step (deliver ev e).
Proof.
  intros Hs. unfold in_step. rewrite deliver_state, deliver_active by exact Hs.
  destruct Hs as [Hd | Hs].
  - rewrite Hd. left. destruct ev; reflexivity.
  - destruct ev as [b | | uri now | uri | i fs now];
      destruct (_editorState e); auto.
Qed.

(** The editor the constructor leaves behind. *)
Lemma Editor_new_eq extensionRoot resource panel now :
  Editor_new extensionRoot resource panel now =
    {| extensionRoot := extensionRoot; resource := resource;
       webviewEditor :=
         {| active := active panel;
            options :=
              Some {| enableScripts := true;
                      localResourceRoots := [resourceRoot resource; extensionRoot] |};
            html := html panel;
            posted := {| type := "setActive"; value := active panel |} :: posted panel;
            disposeCalls := disposeCalls panel |};
       _editorState := if active panel then Active else Visible;
       _disposables := all_resources; released := [];
       pending := [StatProbe; Rendering now];
       calls := [CallUpdate; CallRender] |}.
Proof. destruct panel as [[] ? ? ? ?]; vm_compute; reflexivity. Qed.

Lemma Editor_new_in_step extensionRoot resource panel now :
  in_step (Editor_new extensionRoot resource panel now).
Proof. right. rewrite Editor_new_eq. reflexivity. Qed.

Lemma Editor_new_live extensionRoot resource panel now :
  _editorState (Editor_new extensionRoot resource panel now) ≠ Disposed.
Proof. rewrite Editor_new_eq. cbn. destruct (active panel); discriminate. Qed.

Lemma run_cons ev evs e : run (ev :: evs) e = run evs (deliver ev e).
Proof. reflexivity. Qed.

Lemma run_app evs1 evs2 e : run (evs1 ++ evs2) e = run evs2 (run evs1 e).
Proof. unfold run. apply foldl_app. Qed.

Lemma run_in_step evs e : in_step e → in_step (run evs e).
Proof.
  revert e. induction evs as [|ev evs IH]; intros e Hs; [exact Hs|].
  rewrite run_cons. apply IH, deliver_in_step, Hs.
Qed.

(** Once disposed, always disposed. *)
Lemma disposed_forever evs e :
  _editorState e = Disposed → _editorState (run evs e) = Disposed.
Proof.
  revert e. induction evs as [|ev evs IH]; intros e Hd; [exact Hd|].
  rewrite run_cons. apply IH.
  rewrite deliver_state by (left; exact Hd). rewrite Hd. destruct ev; reflexivity.
Qed.

(** The panel's focus follows the view state changes. *)
Lemma run_active evs e :
  active (webviewEditor (run evs e)) = last_focus (active (webviewEditor e)) evs.
Proof.
  revert e. induction evs as [|ev evs IH]; intros e; [reflexivity|].
  rewrite run_cons, IH, deliver_active. destruct ev; reflexivity.
Qed.

(** The state after a sequence of events, from an editor that is not
    disposed. *)
Lemma run_state evs e :
  in_step e → _editorState e ≠ Disposed →
  _editorState (run evs e) =
    if disposal_delivered evs then Disposed
    else if last_focus (active (webviewEditor e)) evs then Active else Visible.
Proof.
  revert e. induction evs as [|ev evs IH]; intros e Hs Hn.
  - simpl. destruct Hs as [Hd | Hs]; [contradiction | exact Hs].
  - rewrite run_cons. destruct (is_dispose ev) eqn:Hev.
    + destruct ev; try discriminate. simpl.
      apply disposed_forever. reflexivity.
    + assert (Hn' : _editorState (deliver ev e) ≠ Disposed).
      { rewrite deliver_state by exact Hs.
        destruct ev as [[] | | | | ]; try discriminate;
          destruct (_editorState e); congruence. }
      rewrite (IH _ (deliver_in_step ev e Hs) Hn'), deliver_active.
      unfold disposal_delivered. simpl. rewrite Hev. simpl.
      destruct ev; reflexivity.
Qed.

Lemma Editor_new_active extensionRoot resource panel now :
  active (webviewEditor (Editor_new extensionRoot resource panel now)) = active panel.
Proof. rewrite Editor_new_eq. reflexivity. Qed.

Lemma invoke_disposed e c :
  _editorState e = Disposed →
  _editorState (invoke e c) = Disposed ∧ observable (invoke e c) = observable e.
Proof.
  intros Hd. destruct c as [[] now]; open_editor e; subst; split; reflexivity.
Qed.

Lemma invoke_all_disposed cs e :
  _editorState e = Disposed →
  _editorState (foldl invoke e cs) = Disposed
  ∧ observable (foldl invoke e cs) = observable e.
Proof.
  revert e. induction cs as [|c cs IH]; intros e Hd; [split; [exact Hd | reflexivity]|].
  simpl. destruct (invoke_disposed e c Hd) as [Hd' Ho].
  destruct (IH _ Hd') as [Hs Hobs]. split; [exact Hs | congruence].
Qed.

(** No handler releases a resource or forgets one. *)
Lemma deliver_disposables ev e :
  _disposables (deliver ev e) = _disposables e
  ∧ released (deliver ev e) = released e.
Proof.
  destruct ev as [b | | uri now | uri | i fs now]; simpl.
  - open_editor e. destruct st, b; split; reflexivity.
  - split; reflexivity.
  - unfold onDidChange. destruct (String.eqb _ _); [|split; reflexivity].
    open_editor e. destruct st; split; reflexivity.
  - unfold onDidDelete. destruct (String.eqb _ _); split; reflexivity.
  - unfold resume. destruct (pending e !! i) as [[|v]|]; [| |split; reflexivity].
    + unfold probe_settled, promise_then.
      destruct (fs _); [|split; reflexivity].
      open_editor e. destruct st, focus; split; reflexivity.
    + unfold render_resume.
      destruct (getWebiewContents _ _ _ _); split; reflexivity.
Qed.

Lemma run_disposables evs e :
  _disposables (run evs e) = _disposables e ∧ released (run evs e) = released e.
Proof.
  revert e. induction evs as [|ev evs IH]; intros e; [split; reflexivity|].
  rewrite run_cons. destruct (IH (deliver ev e)) as [-> ->].
  apply deliver_disposables.
Qed.

Lemma render_resource now e : resource (render now e) = resource e.
Proof. open_editor e. destruct st; reflexivity. Qed.

(** [getWebiewContents] reads nothing of the editor but its resource. *)
Lemma getWebiewContents_resource e e' v fs now :
  resource e = resource e' →
  getWebiewContents e v fs now = getWebiewContents e' v fs now.
Proof. intros Hr. unfold getWebiewContents. rewrite Hr. reflexivity. Qed.

Lemma render_entries now e :
  entries CallRender (render now e) = S (entries CallRender e).
Proof. open_editor e. destruct st; reflexivity. Qed.

(** ** The claims on one editor *)

(** C4.  After the constructor and any sequence of notifications, the
    editor is [Disposed] exactly when a disposal notification was among
    them, and it is [Active] exactly when none was and the focus the
    panel reported last is true: disposal overrides the focus, whatever
    the order of the two. *)
Theorem state_follows_notifications extensionRoot resource panel now evs :
  let e := run evs (Editor_new extensionRoot resource panel now) in
  (_editorState e = Disposed ↔ disposal_delivered evs = true)
  ∧ (_editorState e = Active
     ↔ disposal_delivered evs = false ∧ last_focus (active panel) evs = true).
Proof.
  simpl.
  rewrite (run_state evs _ (Editor_new_in_step _ _ _ _) (Editor_new_live _ _ _ _)).
  rewrite Editor_new_active.
  destruct (disposal_delivered evs), (last_focus (active panel) evs);
    split; split; try tauto; try discriminate; intros [? ?]; discriminate.
Qed.

(** C5.  Once the disposal notification has reached an editor, and
    whatever events follow it, any calls of [render] and [update] leave
    the editor [Disposed] and change nothing the program or the host
    can see: not the webview's HTML, not the messages, not the
    suspended computations. *)
Theorem disposed_editor_ignores_calls e evs cs :
  let d := run evs (deliver DidDispose e) in
  _editorState (foldl invoke d cs) = Disposed
  ∧ observable (foldl invoke d cs) = observable d.
Proof. simpl. apply invoke_all_disposed, disposed_forever. reflexivity. Qed.

(** C2, as the code has it.  The constructor suspends the probe and
    then makes its own pass, one [render] and one [update], whatever the
    probe will answer.  When the probe is fulfilled, [update] runs once
    more.  When it is rejected, the callback is skipped: [update] does
    not run, and the editor is as before but for the probe having left
    the queue. *)
Theorem stat_probe_then_update extensionRoot resource panel now fs later :
  let e := Editor_new extensionRoot resource panel now in
  pending e = [StatProbe; Rendering now]
  ∧ calls e = [CallUpdate; CallRender]
  ∧ match fs resource with
    | Fulfilled _ =>
        deliver (Resume 0 fs later) e = update (with_pending [Rendering now] e)
        ∧ calls (deliver (Resume 0 fs later) e) = CallUpdate :: calls e
    | Rejected _ =>
        deliver (Resume 0 fs later) e = with_pending [Rendering now] e
        ∧ calls (deliver (Resume 0 fs later) e) = calls e
    end.
Proof.
  intros e. subst e. rewrite Editor_new_eq.
  split; [reflexivity|]. split; [reflexivity|].
  unfold deliver, resume. cbn [pending lookup list_lookup].
  unfold probe_settled, promise_then. cbn.
  destruct (fs resource); cbn [fst]; split; try reflexivity;
    destruct (active panel); reflexivity.
Qed.

(** C3, on the code.  After the constructor and any events, the
    disposal notification among them or not, the five resources are
    still attached to the helper and none has been released; a call of
    [dispose], which no handler makes, would release them. *)
Theorem teardown_releases_nothing extensionRoot resource panel now evs :
  let e := run evs (Editor_new extensionRoot resource panel now) in
  _disposables e = all_resources
  ∧ released e = []
  ∧ released (dispose e) = all_resources.
Proof.
  intros e. subst e. unfold dispose. cbn [released with_disposables].
  destruct (run_disposables evs (Editor_new extensionRoot resource panel now)) as [-> ->].
  rewrite Editor_new_eq. repeat split; reflexivity.
Qed.

(** C8.  A change event whose URI prints as the bound resource does
    enters [render] exactly once, and on an editor that is not disposed
    the continuation of that call assigns the webview's HTML exactly
    once; a change event for another URI leaves the editor as it was. *)
Theorem change_event_renders_once e uri now :
  (Uri_toString false uri = Uri_toString false (resource e) →
     deliver (WatcherDidChange uri now) e = render now e
     ∧ entries CallRender (deliver (WatcherDidChange uri now) e)
       = S (entries CallRender e)
     ∧ (_editorState e ≠ Disposed →
        ∀ fs later contents,
          getWebiewContents e now fs later = Fulfilled contents →
          html (webviewEditor
                  (run [WatcherDidChange uri now;
                        Resume (length (pending e)) fs later] e))
          = contents :: html (webviewEditor e)))
  ∧ (Uri_toString false uri ≠ Uri_toString false (resource e) →
     deliver (WatcherDidChange uri now) e = e).
Proof.
  split; intros Huri; simpl; unfold onDidChange.
  - rewrite Huri, String.eqb_refl.
    split; [reflexivity|]. split; [apply render_entries|].
    intros Hlive fs later contents Hc.
    assert (Hq : pending (render now e) !! length (pending e) = Some (Rendering now)).
    { unfold render. cbn. destruct (_editorState e); [contradiction| |]; cbn;
        rewrite lookup_app_r, Nat.sub_diag by reflexivity; reflexivity. }
    unfold resume. rewrite Hq. unfold render_resume.
    rewrite (getWebiewContents_resource _ e) by apply render_resource.
    rewrite Hc. cbn. apply (f_equal (cons contents)), (f_equal html), render_panel.
  - destruct (String.eqb_spec (Uri_toString false uri) (Uri_toString false (resource e)));
      [contradiction | reflexivity].
Qed.

End EditorFacts.

(** ** The resource URL *)

(** The decimal rendering tells numbers apart. *)
Lemma Number_toString_inj a b : Number_toString a = Number_toString b → a = b.
Proof.
  unfold Number_toString. intros Heq.
  apply DecimalZ.to_int_inj.
  assert (Hs : Some (Z.to_int a) = Some (Z.to_int b))
    by (rewrite <- !NilEmpty.isi, Heq; reflexivity).
  congruence.
Qed.

Section ResourcePath.
Context `{Host}.

(** The three ways [getResourcePath] can go once the size probe is out
    of the way. *)
Lemma getResourcePath_no_placeholder resource version fs :
  no_placeholder resource fs →
  getResourcePath resource version fs =
    Fulfilled (if truthy (query resource)
               then Uri_toString true (asWebviewUri resource)
               else versioned_url resource version).
Proof.
  unfold getResourcePath, versioned_url.
  intros [Hgit | (stat & Hstat & Hsize)].
  - rewrite Hgit. cbn. destruct (truthy (query resource)); reflexivity.
  - destruct (String.eqb (scheme resource) "git"); cbn.
    + rewrite Hstat. cbn. rewrite Hsize.
      destruct (truthy (query resource)); reflexivity.
    + destruct (truthy (query resource)); reflexivity.
Qed.

(** A failing size probe makes the call fail with it. *)
Lemma getResourcePath_probe_fails resource version fs reason :
  scheme resource = "git" → fs resource = Rejected reason →
  getResourcePath resource version fs = Rejected reason.
Proof.
  intros Hgit Hstat. unfold getResourcePath. rewrite Hgit. cbn.
  rewrite Hstat. reflexivity.
Qed.

(** C6.  For a resource of the [git] scheme whose [stat] reports the
    size zero, [getResourcePath] returns the placeholder data URI,
    whatever the query string and the version are. *)
Theorem empty_git_resource_is_placeholder resource version fs stat :
  scheme resource = "git" → fs resource = Fulfilled stat → size stat = 0%Z →
  getResourcePath resource version fs = Fulfilled emptyPngDataUri.
Proof.
  intros Hgit Hstat Hsize. unfold getResourcePath. rewrite Hgit. cbn.
  rewrite Hstat. cbn. rewrite Hsize. reflexivity.
Qed.

(** C7.  Outside the placeholder case, a resource with a query string
    gets the webview URI of the resource as it is, printed without
    encoding, and nothing of the version; a resource without one gets
    the webview URI with the query [version=<version>]. *)
Theorem query_string_is_left_alone resource version fs :
  no_placeholder resource fs →
  (query resource ≠ EmptyString →
     getResourcePath resource version fs
     = Fulfilled (Uri_toString true (asWebviewUri resource)))
  ∧ (query resource = EmptyString →
     getResourcePath resource version fs
     = Fulfilled (Uri_toString true
                    (Uri_with_query (asWebviewUri resource) ("version=" +:+ version)))).
Proof.
  intros Hp. rewrite (getResourcePath_no_placeholder _ _ _ Hp).
  split; intros Hq.
  - destruct (query resource); [contradiction | reflexivity].
  - rewrite Hq. reflexivity.
Qed.

(** C9, as the code has it.  Two renders of a resource without a query
    string, outside the placeholder case, embed the URLs with the
    versions that print the clock readings [t1] and [t2] taken when
    each render began; the two versions differ exactly when the two
    readings do. *)
Theorem versions_differ_with_the_clock e t1 t2 fs1 fs2 n1 n2 :
  query (resource e) = EmptyString →
  no_placeholder (resource e) fs1 → no_placeholder (resource e) fs2 →
  let page t n :=
    document cspSource (Number_toString n)
      (escapeAttribute
         (JSON_stringify
            {| isMac := String.eqb process_platform "darwin";
               src := versioned_url (resource e) (Number_toString t) |})) in
  getWebiewContents e t1 fs1 n1 = Fulfilled (page t1 n1)
  ∧ getWebiewContents e t2 fs2 n2 = Fulfilled (page t2 n2)
  ∧ (Number_toString t1 ≠ Number_toString t2 ↔ t1 ≠ t2).
Proof.
  intros Hq Hp1 Hp2 page. unfold getWebiewContents.
  rewrite (getResourcePath_no_placeholder _ _ _ Hp1),
    (getResourcePath_no_placeholder _ _ _ Hp2), Hq.
  split; [reflexivity|]. split; [reflexivity|].
  split; intros Hne Heq; apply Hne.
  - rewrite Heq. reflexivity.
  - apply Number_toString_inj, Heq.
Qed.

End ResourcePath.

(** ** The manager *)

Section ManagerFacts.
Context `{Host}.

Lemma deliver_disposed ev e :
  _editorState e = Disposed → _editorState (deliver ev e) = Disposed.
Proof. intros Hd. apply (disposed_forever [ev] e Hd). Qed.

Lemma host_run_cons hev hevs m :
  host_run (hev :: hevs) m = host_run hevs (host_step hev m).
Proof. reflexivity. Qed.

Lemma host_run_snoc hevs hev m :
  host_run (hevs ++ [hev]) m = host_step hev (host_run hevs m).
Proof. unfold host_run. rewrite foldl_app. reflexivity. Qed.

Lemma managed_new extensionRoot : managed (EditorManager_new extensionRoot).
Proof.
  split.
  - intros editor e Hl. cbn in Hl. rewrite lookup_nil in Hl. discriminate.
  - intros editor Ha. discriminate.
Qed.

Lemma managed_open document panel now m :
  managed m → managed (resolveCustomTextEditor document panel now m).
Proof.
  intros [Hobj Hact]. split; cbn.
  - intros editor e Hl.
    destruct (decide (editor < length (objects m))) as [Hlt | Hge].
    + rewrite lookup_app_l in Hl by exact Hlt.
      destruct (Hobj _ _ Hl) as [Hin | Hd]; [left; set_solver | right; exact Hd].
    + left. apply lookup_lt_Some in Hl. rewrite length_app in Hl. cbn in Hl.
      assert (editor = length (objects m)) as -> by lia. set_solver.
  - intros editor [= <-]. rewrite length_app. cbn. lia.
Qed.

(** The objects after an event on a panel: the editor of the panel has
    handled it, the others are as before. *)
Lemma host_step_objects editor ev m e :
  objects m !! editor = Some e →
  objects (host_step (Panel editor ev) m) = <[editor := deliver ev e]> (objects m).
Proof.
  intros Hl. cbn. rewrite Hl.
  destruct ev as [b | | uri now | uri | i fs now]; try reflexivity.
  unfold manager_onDidChangeViewState.
  destruct (active _); [reflexivity|].
  destruct (is_active editor _ && _); reflexivity.
Qed.

Lemma host_step_editors editor ev m e :
  objects m !! editor = Some e →
  _editors (host_step (Panel editor ev) m) =
    if is_dispose ev then _editors m ∖ {[editor]} else _editors m.
Proof.
  intros Hl. cbn. rewrite Hl.
  destruct ev as [b | | uri now | uri | i fs now]; try reflexivity.
  unfold manager_onDidChangeViewState.
  destruct (active _); [reflexivity|].
  destruct (is_active editor _ && _); reflexivity.
Qed.

Lemma host_step_activeEditor editor ev m e a :
  objects m !! editor = Some e →
  _activeEditor (host_step (Panel editor ev) m) = Some a →
  a = editor ∨ _activeEditor m = Some a.
Proof.
  intros Hl. cbn. rewrite Hl.
  destruct ev as [b | | uri now | uri | i fs now]; cbn; auto.
  unfold manager_onDidChangeViewState.
  destruct (active _); [intros [= <-]; auto|].
  destruct (is_active editor _ && _); cbn; [discriminate | auto].
Qed.

Lemma managed_step hev m : managed m → managed (host_step hev m).
Proof.
  intros Hm. destruct hev as [document panel now | editor ev].
  { apply managed_open, Hm. }
  destruct (objects m !! editor) as [e|] eqn:Hl;
    [|unfold host_step; rewrite Hl; exact Hm].
  destruct Hm as [Hobj Hact]. split.
  - intros editor' e' Hl'.
    rewrite (host_step_objects _ _ _ _ Hl) in Hl'.
    rewrite (host_step_editors _ _ _ _ Hl).
    destruct (decide (editor' = editor)) as [-> | Hne].
    + rewrite list_lookup_insert_eq in Hl' by (eapply lookup_lt_Some, Hl).
      injection Hl' as <-.
      destruct (is_dispose ev) eqn:Hev.
      * destruct ev; try discriminate. right. reflexivity.
      * destruct (Hobj _ _ Hl) as [Hin | Hd]; [left; exact Hin|].
        right. apply deliver_disposed, Hd.
    + rewrite list_lookup_insert_ne in Hl' by congruence.
      destruct (Hobj _ _ Hl') as [Hin | Hd]; [left | right; exact Hd].
      destruct (is_dispose ev); [set_solver | exact Hin].
  - intros a Ha.
    rewrite (host_step_objects _ _ _ _ Hl), length_insert.
    destruct (host_step_activeEditor _ _ _ _ _ Hl Ha) as [-> | Hold].
    + eapply lookup_lt_Some, Hl.
    + apply Hact, Hold.
Qed.

Lemma managed_run hevs m : managed m → managed (host_run hevs m).
Proof.
  revert m. induction hevs as [|hev hevs IH]; intros m Hm; [exact Hm|].
  rewrite host_run_cons. apply IH, managed_step, Hm.
Qed.

(** C1, as the code has it.  After any sequence of openings and panel
    events, the active editor, if there is one, is in the set of live
    editors or has seen its panel disposed. *)
Theorem active_editor_is_live_or_disposed extensionRoot hevs editor :
  _activeEditor (host_run hevs (EditorManager_new extensionRoot)) = Some editor →
  editor ∈ _editors (host_run hevs (EditorManager_new extensionRoot))
  ∨ editor_disposed editor (host_run hevs (EditorManager_new extensionRoot)).
Proof.
  intros Ha.
  destruct (managed_run hevs _ (managed_new extensionRoot)) as [Hobj Hact].
  destruct (lookup_lt_is_Some_2 _ _ (Hact _ Ha)) as [e Hl].
  destruct (Hobj _ _ Hl) as [Hin | Hd]; [left; exact Hin|].
  right. exists e. split; assumption.
Qed.

(** C10.  [setActiveEditor] broadcasts the context flag at every call,
    the active editor changed or not: a view state change that reports
    the active editor active broadcasts [true] again and leaves the
    reference as it was, and every opening broadcasts [true]. *)
Theorem setActiveEditor_always_broadcasts :
  (∀ value m,
     commands (setActiveEditor value m) = setContext_focus (defined value) :: commands m)
  ∧ (∀ m editor e,
       objects m !! editor = Some e → _activeEditor m = Some editor →
       commands (host_step (Panel editor (DidChangeViewState true)) m)
       = setContext_focus true :: commands m
       ∧ _activeEditor (host_step (Panel editor (DidChangeViewState true)) m)
         = _activeEditor m)
  ∧ (∀ m document panel now,
       commands (host_step (Open document panel now) m)
       = setContext_focus true :: commands m).
Proof.
  split; [reflexivity|]. split; [|reflexivity].
  intros m editor e Hl Ha. cbn [host_step]. rewrite Hl.
  rewrite deliver_active. unfold manager_onDidChangeViewState.
  split; [reflexivity|]. cbn. rewrite Ha. reflexivity.
Qed.

End ManagerFacts.

(** ** The claims on the example host *)

(** C1 fails as stated: the host opens the diagram and closes its panel;
    the editor has left the set and is the active editor still. *)
Lemma closed_editor_stays_active :
  _activeEditor (host_run (H:=example_host) open_and_close example_manager) = Some 0
  ∧ 0 ∉ _editors (host_run (H:=example_host) open_and_close example_manager).
Proof.
  split; [reflexivity|]. cbn. rewrite elem_of_difference.
  intros [_ Hout]. apply Hout, elem_of_singleton. reflexivity.
Qed.

Lemma active_editor_is_live_or_disposed_witness :
  0 ∈ _editors (host_run (H:=example_host) open_and_close example_manager)
  ∨ editor_disposed 0 (host_run (H:=example_host) open_and_close example_manager).
Proof.
  apply (active_editor_is_live_or_disposed (H:=example_host) extension_dir open_and_close 0).
  reflexivity.
Defined.

(** C2 fails as stated: the probe is the first suspended computation of
    the example editor; when it is rejected, [update] has been entered
    once, by the constructor, and no second time, as it is when the probe
    is fulfilled. *)
Lemma rejected_probe_skips_update :
  pending example_editor !! 0 = Some StatProbe
  ∧ fs_missing (resource example_editor) = Rejected "FileNotFound"
  ∧ entries CallUpdate example_editor = 1
  ∧ entries CallUpdate
      (deliver (H:=example_host) (Resume 0 fs_missing 1001) example_editor) = 1
  ∧ entries CallUpdate
      (deliver (H:=example_host) (Resume 0 (fs_sized 7) 1001) example_editor) = 2.
Proof. vm_compute. repeat split; reflexivity. Qed.

(** The watcher outlives the panel: after the disposal notification a
    change event for the diagram still reaches its handler and enters
    [render], which then does nothing. *)
Example watcher_outlives_panel :
  released (run (H:=example_host) [DidDispose; WatcherDidChange diagram 2000]
              example_editor) = []
  ∧ entries CallRender
      (run (H:=example_host) [DidDispose; WatcherDidChange diagram 2000]
         example_editor) = 2
  ∧ pending (run (H:=example_host) [DidDispose; WatcherDidChange diagram 2000]
               example_editor) = pending example_editor.
Proof. vm_compute. repeat split; reflexivity. Qed.

(** C9 fails as stated: two change events within one millisecond start
    two renders, the second and third of the editor, and both pages embed
    the version 2000. *)
Lemma one_millisecond_one_version :
  query diagram = EmptyString
  ∧ entries CallRender (run (H:=example_host) burst example_editor) = 3
  ∧ html (webviewEditor (run (H:=example_host) burst example_editor))
    = [example_page "2000" "2002"; example_page "2000" "2001"].
Proof. vm_compute. repeat split; reflexivity. Qed.

Lemma empty_git_resource_is_placeholder_witness :
  getResourcePath (H:=example_host) (git_uri "/work/order.bpmn" "ref=HEAD")
    "2000" (fs_sized 0)
  = Fulfilled emptyPngDataUri.
Proof.
  apply (empty_git_resource_is_placeholder (H:=example_host)
           (git_uri "/work/order.bpmn" "ref=HEAD") "2000" (fs_sized 0) {| size := 0 |});
    reflexivity.
Defined.

Lemma query_string_is_left_alone_witness :
  getResourcePath (H:=example_host) (git_uri "/work/order.bpmn" "ref=HEAD")
    "2000" (fs_sized 7)
  = Fulfilled "vscode-resource:///work/order.bpmn?ref=HEAD"
  ∧ getResourcePath (H:=example_host) diagram "2000" (fs_sized 7)
    = Fulfilled "vscode-resource:///work/order.bpmn?version=2000".
Proof.
  split.
  - apply (query_string_is_left_alone (H:=example_host)
             (git_uri "/work/order.bpmn" "ref=HEAD") "2000" (fs_sized 7)).
    + right. exists {| size := 7 |}. split; reflexivity.
    + discriminate.
  - apply (query_string_is_left_alone (H:=example_host) diagram "2000" (fs_sized 7)).
    + left. reflexivity.
    + reflexivity.
Defined.

Lemma change_event_renders_once_witness :
  entries CallRender
    (deliver (H:=example_host) (WatcherDidChange diagram 2000) example_editor) = 2
  ∧ html (webviewEditor
            (run (H:=example_host)
               [WatcherDidChange diagram 2000; Resume 2 (fs_sized 7) 2001]
               example_editor))
    = [example_page "2000" "2001"]
  ∧ deliver (H:=example_host) (WatcherDidChange extension_dir 2000) example_editor
    = example_editor.
Proof.
  destruct (change_event_renders_once (H:=example_host) example_editor diagram 2000)
    as [Hsame _].
  destruct (change_event_renders_once (H:=example_host) example_editor extension_dir 2000)
    as [_ Hother].
  destruct (Hsame eq_refl) as (_ & Hentries & Hhtml).
  split; [exact Hentries|]. split.
  - assert (Hlive : _editorState example_editor ≠ Disposed) by (intros Hd; inversion Hd).
    apply (Hhtml Hlive (fs_sized 7) 2001%Z (example_page "2000" "2001")).
    reflexivity.
  - apply Hother. discriminate.
Defined.

Lemma versions_differ_with_the_clock_witness :
  getWebiewContents (H:=example_host) example_editor 2000 (fs_sized 7) 2001
  = Fulfilled (example_page "2000" "2001")
  ∧ getWebiewContents (H:=example_host) example_editor 2005 (fs_sized 7) 2006
    = Fulfilled (example_page "2005" "2006")
  ∧ (Number_toString 2000 ≠ Number_toString 2005 ↔ 2000%Z ≠ 2005%Z).
Proof.
  apply (versions_differ_with_the_clock (H:=example_host) example_editor
           2000 2005 (fs_sized 7) (fs_sized 7) 2001 2006).
  - reflexivity.
  - left. reflexivity.
  - left. reflexivity.
Defined.

Lemma setActiveEditor_always_broadcasts_witness :
  commands
    (host_run (H:=example_host)
       [Open diagram (fresh_panel true) 1000; Panel 0 (DidChangeViewState true)]
       example_manager)
  = [setContext_focus true; setContext_focus true].
Proof.
  destruct (setActiveEditor_always_broadcasts (H:=example_host)) as (_ & Hagain & _).
  destruct (Hagain
              (host_run (H:=example_host) [Open diagram (fresh_panel true) 1000]
                 example_manager)
              0 example_editor eq_refl eq_refl) as [Hcommands _].
  exact Hcommands.
Defined.

(** * Further properties *)

(** ** Escaping *)

Lemma String_app_cons c (a b : string) : String c a +:+ b = String c (a +:+ b).
Proof. reflexivity. Qed.

Lemma has_dquote_app a b : has_dquote (a +:+ b) = has_dquote a || has_dquote b.
Proof.
  induction a as [|c a IH]; [reflexivity|].
  rewrite String_app_cons. cbn [has_dquote]. rewrite IH.
  destruct (Ascii.eqb c dquote); reflexivity.
Qed.

Lemma escapeAttribute_cons c s :
  escapeAttribute (String c s) =
    if Ascii.eqb c dquote then "&quot;" +:+ escapeAttribute s
    else String c (escapeAttribute s).
Proof. reflexivity. Qed.

(** X1.  What [escapeAttribute] returns holds no double quote, so it
    cannot end the attribute value it is written into. *)
Theorem escapeAttribute_leaves_no_quote s :
  has_dquote (escapeAttribute s) = false.
Proof.
  induction s as [|c s IH]; [reflexivity|].
  rewrite escapeAttribute_cons. destruct (Ascii.eqb c dquote) eqn:Hc.
  - rewrite has_dquote_app, IH. reflexivity.
  - cbn [has_dquote]. rewrite Hc, IH. reflexivity.
Qed.

(** X2.  [escapeAttribute] returns its argument unchanged exactly when
    the argument holds no double quote. *)
Theorem escapeAttribute_fixes_quote_free s :
  escapeAttribute s = s ↔ has_dquote s = false.
Proof.
  split.
  - intros Heq. rewrite <- Heq. apply escapeAttribute_leaves_no_quote.
  - induction s as [|c s IH]; [reflexivity|].
    cbn [has_dquote]. rewrite escapeAttribute_cons.
    destruct (Ascii.eqb c dquote); [discriminate|].
    cbn. intros Hs. rewrite (IH Hs). reflexivity.
Qed.

(** X3.  Escaping twice is escaping once: the ampersand of the entity is
    not escaped in its turn. *)
Theorem escapeAttribute_idempotent s :
  escapeAttribute (escapeAttribute s) = escapeAttribute s.
Proof. apply escapeAttribute_fixes_quote_free, escapeAttribute_leaves_no_quote. Qed.

(** ** The resource root *)

Lemma prefix_refl s : String.prefix s s = true.
Proof.
  induction s as [|c s IH]; [reflexivity|].
  cbn. destruct (ascii_dec c c); [exact IH | contradiction].
Qed.

Lemma prefix_app a b : String.prefix a (a +:+ b) = true.
Proof.
  induction a as [|c a IH]; [destruct b; reflexivity|].
  rewrite String_app_cons. cbn [String.prefix].
  destruct (ascii_dec c c); [exact IH | contradiction].
Qed.

Lemma split_last_slash_joins s before after :
  split_last_slash s = Some (before, after) → s = before +:+ "/" +:+ after.
Proof.
  revert before after. induction s as [|c s IH]; intros before after; [discriminate|].
  cbn. destruct (split_last_slash s) as [[b a]|].
  - intros [= <- <-]. rewrite String_app_cons, <- (IH b a eq_refl). reflexivity.
  - destruct (Ascii.eqb_spec c "/"%char) as [-> | _]; [|discriminate].
    intros [= <- <-]. reflexivity.
Qed.

Lemma split_last_slash_trailing before :
  split_last_slash (before +:+ "/") = Some (before, EmptyString).
Proof.
  induction before as [|c before IH]; [reflexivity|].
  rewrite String_app_cons. cbn [split_last_slash]. rewrite IH. reflexivity.
Qed.

Lemma String_app_assoc (a b c : string) : (a +:+ b) +:+ c = a +:+ (b +:+ c).
Proof.
  induction a as [|x a IH]; [reflexivity|].
  rewrite !String_app_cons, IH. reflexivity.
Qed.

(** X4.  The path of the resource root is a prefix of the path of the
    resource: [replace] cuts the file name off or leaves the path as it
    is. *)
Theorem replace_file_name_is_prefix p :
  String.prefix (replace_file_name p) p = true.
Proof.
  unfold replace_file_name.
  destruct (split_last_slash p) as [[before [|c rest]]|] eqn:Hs;
    try apply prefix_refl.
  destruct (has_extension rest); [|apply prefix_refl].
  rewrite (split_last_slash_joins _ _ _ Hs), <- String_app_assoc.
  apply prefix_app.
Qed.

(** X5.  Taking the root of a root changes nothing: once the file name
    is cut off, the path ends in a slash and the pattern finds no file
    name. *)
Theorem replace_file_name_idempotent p :
  replace_file_name (replace_file_name p) = replace_file_name p.
Proof.
  unfold replace_file_name at 2 3.
  destruct (split_last_slash p) as [[before [|c rest]]|] eqn:Hs.
  - unfold replace_file_name. rewrite Hs. reflexivity.
  - destruct (has_extension rest) eqn:Hext.
    + unfold replace_file_name. rewrite split_last_slash_trailing. reflexivity.
    + unfold replace_file_name. rewrite Hs, Hext. reflexivity.
  - unfold replace_file_name. rewrite Hs. reflexivity.
Qed.

(** ** One editor: what the events leave alone and what they add *)

Section EditorTraces.
Context `{Host}.

(** The bound resource, the extension root and the webview options are
    set by the constructor and by nothing else. *)
Lemma deliver_frame ev e :
  resource (deliver ev e) = resource e
  ∧ extensionRoot (deliver ev e) = extensionRoot e
  ∧ options (webviewEditor (deliver ev e)) = options (webviewEditor e).
Proof.
  destruct ev as [b | | uri now | uri | i fs now]; simpl.
  - open_editor e. destruct st, b; repeat split; reflexivity.
  - repeat split; reflexivity.
  - unfold onDidChange. destruct (String.eqb _ _); [|repeat split; reflexivity].
    open_editor e. destruct st; repeat split; reflexivity.
  - unfold onDidDelete. destruct (String.eqb _ _); repeat split; reflexivity.
  - unfold resume. destruct (pending e !! i) as [[|v]|]; [| |repeat split; reflexivity].
    + unfold probe_settled, promise_then.
      destruct (fs _); [|repeat split; reflexivity].
      open_editor e. destruct st, focus; repeat split; reflexivity.
    + unfold render_resume.
      destruct (getWebiewContents _ _ _ _); repeat split; reflexivity.
Qed.

Lemma run_frame evs e :
  resource (run evs e) = resource e
  ∧ extensionRoot (run evs e) = extensionRoot e
  ∧ options (webviewEditor (run evs e)) = options (webviewEditor e).
Proof.
  revert e. induction evs as [|ev evs IH]; intros e; [repeat split; reflexivity|].
  rewrite run_cons. destruct (IH (deliver ev e)) as (-> & -> & ->).
  apply deliver_frame.
Qed.

(** X6.  The constructor sets the webview options once: scripts are
    enabled and the local resource roots are the resource root and the
    extension root, and no event changes them afterwards. *)
Theorem webview_options_are_fixed extensionRoot resource panel now evs :
  options (webviewEditor (run evs (Editor_new extensionRoot resource panel now)))
  = Some {| enableScripts := true;
            localResourceRoots := [resourceRoot resource; extensionRoot] |}.
Proof.
  destruct (run_frame evs (Editor_new extensionRoot resource panel now)) as (_ & _ & ->).
  rewrite Editor_new_eq. reflexivity.
Qed.

Lemma deliver_posted ev e :
  posted (webviewEditor (deliver ev e)) =
    match ev with
    | DidChangeViewState nowActive =>
        setActive_message nowActive :: posted (webviewEditor e)
    | _ => posted (webviewEditor e)
    end.
Proof.
  destruct ev as [b | | uri now | uri | i fs now]; simpl.
  - open_editor e. destruct st, b; reflexivity.
  - reflexivity.
  - unfold onDidChange. destruct (String.eqb _ _); [rewrite render_panel|]; reflexivity.
  - unfold onDidDelete. destruct (String.eqb _ _); reflexivity.
  - unfold resume. destruct (pending e !! i) as [[|v]|]; [| |reflexivity].
    + unfold probe_settled, promise_then.
      destruct (fs _); cbn [fst]; [rewrite update_panel|]; reflexivity.
    + unfold render_resume. destruct (getWebiewContents _ _ _ _); reflexivity.
Qed.

Lemma run_posted evs e :
  posted (webviewEditor (run evs e))
  = (map setActive_message (rev (focus_values evs)) ++ posted (webviewEditor e))%list.
Proof.
  revert e. induction evs as [|ev evs IH]; intros e; [reflexivity|].
  rewrite run_cons, IH, deliver_posted.
  destruct ev; try reflexivity.
  cbn [focus_values rev]. rewrite map_app, <- app_assoc. reflexivity.
Qed.

(** X7.  The messages an editor posts are one [setActive] for the focus
    at construction and one for each view state change, in their order
    and with the value each change reports, whether the value changed or
    not and whether the editor is disposed or not. *)
Theorem posted_messages_follow_focus extensionRoot resource panel now evs :
  posted (webviewEditor (run evs (Editor_new extensionRoot resource panel now)))
  = (map setActive_message (rev (focus_values evs))
     ++ setActive_message (active panel) :: posted panel)%list.
Proof. rewrite run_posted, Editor_new_eq. reflexivity. Qed.

Lemma update_in_step_observable e :
  in_step e → observable (update e) = observable e.
Proof.
  intros [Hd | Hs]; open_editor e; subst; [reflexivity|].
  destruct focus; reflexivity.
Qed.

(** X8.  After the constructor and any events the state agrees with the
    focus of the panel unless the editor is disposed, so a further
    [update], such as the one of the fulfilled probe, changes nothing
    that can be observed. *)
Theorem update_is_idle_when_reached extensionRoot resource panel now evs :
  let e := run evs (Editor_new extensionRoot resource panel now) in
  in_step e ∧ observable (update e) = observable e.
Proof.
  intros e.
  assert (Hs : in_step e) by apply run_in_step, Editor_new_in_step.
  split; [exact Hs | apply update_in_step_observable, Hs].
Qed.

Lemma renders_pending_app ts1 ts2 :
  renders_pending (ts1 ++ ts2) = renders_pending ts1 + renders_pending ts2.
Proof.
  induction ts1 as [|[|v] ts1 IH]; cbn; [reflexivity | exact IH | rewrite IH; reflexivity].
Qed.

Lemma renders_pending_delete ts i t :
  ts !! i = Some t →
  renders_pending ts
  = renders_pending (delete i ts)
    + match t with Rendering _ => 1 | StatProbe => 0 end.
Proof.
  revert i. induction ts as [|t' ts IH]; intros i Hl; [discriminate|].
  destruct i as [|i].
  - injection Hl as ->. cbn. destruct t; lia.
  - change (delete (S i) (t' :: ts)) with (t' :: delete i ts).
    specialize (IH i Hl). destruct t'; cbn [renders_pending]; lia.
Qed.

Lemma deliver_html_accounted base ev e :
  html_accounted base e → html_accounted base (deliver ev e).
Proof.
  unfold html_accounted, entries.
  destruct ev as [b | | uri now | uri | i fs now]; simpl.
  - open_editor e. destruct st, b; cbn; lia.
  - intros Ha. exact Ha.
  - unfold onDidChange. destruct (String.eqb _ _); [|intros Ha; exact Ha].
    open_editor e. destruct st; cbn; rewrite ?renders_pending_app; cbn; lia.
  - unfold onDidDelete. destruct (String.eqb _ _); intros Ha; exact Ha.
  - unfold resume. destruct (pending e !! i) as [t|] eqn:Hl; [|intros Ha; exact Ha].
    rewrite (renders_pending_delete _ _ _ Hl).
    destruct t as [|v].
    + unfold probe_settled, promise_then.
      destruct (fs _); cbn [fst]; [|cbn; lia].
      open_editor e. destruct st, focus; cbn; lia.
    + unfold render_resume. destruct (getWebiewContents _ _ _ _); cbn; lia.
Qed.

Lemma run_html_accounted base evs e :
  html_accounted base e → html_accounted base (run evs e).
Proof.
  revert e. induction evs as [|ev evs IH]; intros e Ha; [exact Ha|].
  rewrite run_cons. apply IH, deliver_html_accounted, Ha.
Qed.

(** X9.  The webview's HTML is assigned at most once for each entry
    into [render]: after the constructor and any events, the assignments
    made since the panel was handed over and the renders still suspended
    together do not outnumber the calls of [render]. *)
Theorem html_assigned_at_most_once_per_render extensionRoot resource panel now evs :
  let e := run evs (Editor_new extensionRoot resource panel now) in
  (length (html (webviewEditor e)) + renders_pending (pending e)
   ≤ length (html panel) + entries CallRender e)%nat.
Proof.
  intros e. apply (run_html_accounted (length (html panel))).
  unfold html_accounted. rewrite Editor_new_eq. cbn. lia.
Qed.

Lemma deliver_disposeCalls ev e :
  disposeCalls (webviewEditor (deliver ev e))
  = disposeCalls (webviewEditor e) + matching_deletes (resource e) [ev].
Proof.
  destruct ev as [b | | uri now | uri | i fs now]; simpl.
  - open_editor e. destruct st, b; cbn; lia.
  - lia.
  - unfold onDidChange. destruct (String.eqb _ _); [rewrite render_panel|]; lia.
  - unfold onDidDelete. destruct (String.eqb _ _); cbn; lia.
  - unfold resume. destruct (pending e !! i) as [[|v]|]; [| |lia].
    + unfold probe_settled, promise_then.
      destruct (fs _); cbn [fst]; [rewrite update_panel|]; cbn; lia.
    + unfold render_resume. destruct (getWebiewContents _ _ _ _); cbn; lia.
Qed.

Lemma matching_deletes_cons resource ev evs :
  matching_deletes resource (ev :: evs)
  = matching_deletes resource [ev] + matching_deletes resource evs.
Proof. destruct ev; cbn; lia. Qed.

Lemma run_disposeCalls evs e :
  disposeCalls (webviewEditor (run evs e))
  = disposeCalls (webviewEditor e) + matching_deletes (resource e) evs.
Proof.
  revert e. induction evs as [|ev evs IH]; intros e; [cbn; lia|].
  rewrite run_cons, IH, deliver_disposeCalls, (matching_deletes_cons _ ev evs).
  destruct (deliver_frame ev e) as (-> & _). lia.
Qed.

(** X10.  The editor asks the host to dispose the panel once for each
    delete event whose URI prints as the bound resource does, and at no
    other occasion; it asks again when the panel is disposed already. *)
Theorem panel_disposed_once_per_matching_delete extensionRoot resource panel now evs :
  disposeCalls (webviewEditor (run evs (Editor_new extensionRoot resource panel now)))
  = disposeCalls panel + matching_deletes resource evs.
Proof. rewrite run_disposeCalls, Editor_new_eq. reflexivity. Qed.

(** X11.  A render that was suspended when the panel was disposed still
    assigns the HTML when it continues: the state is tested before the
    [await] only. *)
Theorem suspended_render_outlives_disposal e uri now fs later contents :
  Uri_toString false uri = Uri_toString false (resource e) →
  _editorState e ≠ Disposed →
  getWebiewContents e now fs later = Fulfilled contents →
  let e' :=
    run [WatcherDidChange uri now; DidDispose;
         Resume (length (pending e)) fs later] e in
  _editorState e' = Disposed
  ∧ html (webviewEditor e') = contents :: html (webviewEditor e).
Proof.
  intros Huri Hlive Hc e'. subst e'. unfold run. cbn [foldl].
  change (deliver (WatcherDidChange uri now) e) with (onDidChange uri now e).
  unfold onDidChange. rewrite Huri, String.eqb_refl.
  assert (Hq : pending (onDidDispose (render now e)) !! length (pending e)
               = Some (Rendering now)).
  { unfold render. cbn. destruct (_editorState e); [contradiction| |]; cbn;
      rewrite lookup_app_r, Nat.sub_diag by reflexivity; reflexivity. }
  cbn [deliver]. unfold resume. rewrite Hq. unfold render_resume.
  rewrite (getWebiewContents_resource _ e) by apply render_resource.
  rewrite Hc. cbn. split; [reflexivity|].
  apply (f_equal (cons contents)), (f_equal html), render_panel.
Qed.

(** X12.  When the size probe of a [git] resource fails, the render that
    waited for it ends without a trace: the task leaves the queue and
    the editor is otherwise as it was, its HTML included. *)
Theorem failed_size_probe_drops_render e i versionClock fs later reason :
  pending e !! i = Some (Rendering versionClock) →
  scheme (resource e) = "git" →
  fs (resource e) = Rejected reason →
  deliver (Resume i fs later) e = with_pending (delete i (pending e)) e.
Proof.
  intros Hl Hgit Hfs. cbn [deliver]. unfold resume. rewrite Hl.
  unfold render_resume, getWebiewContents.
  rewrite (getResourcePath_probe_fails _ _ _ reason) by assumption.
  reflexivity.
Qed.

(** X13.  [extensionResource] reads the extension root only: the empty
    path gives the webview URI of the root itself, and no event changes
    what it returns. *)
Theorem extensionResource_of_root e p evs :
  extensionResource EmptyString e = asWebviewUri (extensionRoot e)
  ∧ extensionResource p (run evs e) = extensionResource p e.
Proof.
  unfold extensionResource. split.
  - f_equal. destruct (extensionRoot e) as [s a pa q f]. unfold Uri_with_path. cbn.
    f_equal. clear. induction pa as [|c pa IH]; [reflexivity|].
    rewrite String_app_cons, IH. reflexivity.
  - destruct (run_frame evs e) as (_ & -> & _). reflexivity.
Qed.

End EditorTraces.

(** ** The resource URL: failure and what is not read *)

Section ResourcePathEdges.
Context `{Host}.

(** X14.  [getResourcePath] fails exactly when the resource is of the
    [git] scheme and its [stat] fails, and then with the reason of the
    [stat]; nothing else in it can fail. *)
Theorem getResourcePath_fails_with_stat resource version fs reason :
  getResourcePath resource version fs = Rejected reason
  ↔ scheme resource = "git" ∧ fs resource = Rejected reason.
Proof.
  unfold getResourcePath.
  destruct (String.eqb_spec (scheme resource) "git") as [Hgit | Hgit]; cbn.
  - destruct (fs resource) as [stat | r]; cbn.
    + destruct (size stat =? 0)%Z, (truthy (query resource)); cbn;
        (split; [discriminate | intros [_ Hr]; discriminate Hr]).
    + split.
      * intros Hr. injection Hr as ->. split; [exact Hgit | reflexivity].
      * intros [_ Hr]. injection Hr as ->. reflexivity.
  - destruct (truthy (query resource)); cbn;
      (split; [discriminate | intros [Hs _]; contradiction]).
Qed.

(** X15.  What [getResourcePath] does not read: the file system for a
    resource outside the [git] scheme, and the version for a resource
    with a query string. *)
Theorem getResourcePath_reads_sparingly resource :
  (scheme resource ≠ "git" →
     ∀ version fs fs',
       getResourcePath resource version fs = getResourcePath resource version fs')
  ∧ (query resource ≠ EmptyString →
     ∀ version version' fs,
       getResourcePath resource version fs = getResourcePath resource version' fs).
Proof.
  unfold getResourcePath. split.
  - intros Hs version fs fs'.
    destruct (String.eqb_spec (scheme resource) "git"); [contradiction | reflexivity].
  - intros Hq version version' fs.
    destruct (query resource); [contradiction|]. cbn [truthy].
    destruct (String.eqb (scheme resource) "git"); cbn; [|reflexivity].
    destruct (fs resource) as [stat|]; cbn; [|reflexivity].
    destruct (size stat =? 0)%Z; reflexivity.
Qed.

End ResourcePathEdges.

(** ** The manager: the set, the flag and the other editors *)

Section ManagerInvariants.
Context `{Host}.

Lemma deliver_keeps_alive ev e :
  in_step e → is_dispose ev = false →
  (_editorState (deliver ev e) = Disposed ↔ _editorState e = Disposed).
Proof.
  intros Hs Hev. rewrite deliver_state by exact Hs.
  destruct ev as [[] | | | | ]; try discriminate;
    destruct (_editorState e); split; congruence.
Qed.

Lemma live_set_new extensionRoot : live_set (EditorManager_new extensionRoot).
Proof.
  split.
  - intros editor. cbn. split; [set_solver|].
    intros (e & Hl & _). rewrite lookup_nil in Hl. discriminate.
  - intros editor e Hl. cbn in Hl. rewrite lookup_nil in Hl. discriminate.
Qed.

Lemma live_set_open document panel now m :
  live_set m → live_set (resolveCustomTextEditor document panel now m).
Proof.
  intros [Hset Hstep]. split; cbn.
  - intros editor. rewrite elem_of_union, elem_of_singleton, Hset. split.
    + intros [-> | (e & Hl & Hlive)].
      * eexists. split; [apply list_lookup_middle; reflexivity|].
        apply Editor_new_live.
      * exists e. split; [|exact Hlive].
        rewrite lookup_app_l; [exact Hl | eapply lookup_lt_Some, Hl].
    + intros (e & Hl & Hlive).
      destruct (decide (editor < length (objects m))) as [Hlt | Hge].
      * right. exists e. rewrite lookup_app_l in Hl by exact Hlt. split; assumption.
      * left. apply lookup_lt_Some in Hl. rewrite length_app in Hl. cbn in Hl. lia.
  - intros editor e Hl.
    destruct (decide (editor < length (objects m))) as [Hlt | Hge].
    + rewrite lookup_app_l in Hl by exact Hlt. eapply Hstep, Hl.
    + assert (editor = length (objects m)) as ->.
      { apply lookup_lt_Some in Hl. rewrite length_app in Hl. cbn in Hl. lia. }
      rewrite list_lookup_middle in Hl by reflexivity.
      injection Hl as <-. apply Editor_new_in_step.
Qed.

Lemma live_set_step hev m : live_set m → live_set (host_step hev m).
Proof.
  intros Hm. destruct hev as [document panel now | editor ev].
  { apply live_set_open, Hm. }
  destruct (objects m !! editor) as [e|] eqn:Hl;
    [|unfold host_step; rewrite Hl; exact Hm].
  destruct Hm as [Hset Hstep].
  assert (Hlt : editor < length (objects m)) by (eapply lookup_lt_Some, Hl).
  split.
  - intros editor'.
    rewrite (host_step_objects _ _ _ _ Hl), (host_step_editors _ _ _ _ Hl).
    destruct (decide (editor' = editor)) as [-> | Hne].
    + rewrite list_lookup_insert_eq by exact Hlt.
      destruct (is_dispose ev) eqn:Hev.
      * destruct ev; try discriminate. split.
        -- rewrite elem_of_difference, elem_of_singleton. intros [_ Hout].
           contradiction Hout. reflexivity.
        -- intros (e' & [= <-] & Hlive). contradiction Hlive. reflexivity.
      * rewrite Hset. split.
        -- intros (e0 & Hl0 & Hlive). rewrite Hl in Hl0. injection Hl0 as <-.
           eexists. split; [reflexivity|].
           rewrite (deliver_keeps_alive ev e (Hstep _ _ Hl) Hev). exact Hlive.
        -- intros (e' & [= <-] & Hlive). exists e. split; [exact Hl|].
           rewrite <- (deliver_keeps_alive ev e (Hstep _ _ Hl) Hev). exact Hlive.
    + rewrite list_lookup_insert_ne by congruence.
      rewrite <- Hset. destruct (is_dispose ev); [|reflexivity].
      rewrite elem_of_difference, elem_of_singleton.
      split; [intros [Hin _]; exact Hin | intros Hin; split; assumption].
  - intros editor' e' Hl'. rewrite (host_step_objects _ _ _ _ Hl) in Hl'.
    destruct (decide (editor' = editor)) as [-> | Hne].
    + rewrite list_lookup_insert_eq in Hl' by exact Hlt.
      injection Hl' as <-. apply deliver_in_step. eapply Hstep, Hl.
    + rewrite list_lookup_insert_ne in Hl' by congruence. eapply Hstep, Hl'.
Qed.

Lemma live_set_run hevs m : live_set m → live_set (host_run hevs m).
Proof.
  revert m. induction hevs as [|hev hevs IH]; intros m Hm; [exact Hm|].
  rewrite host_run_cons. apply IH, live_set_step, Hm.
Qed.

(** X16.  After any openings and panel events, the set of the manager
    holds exactly the editors it has created whose panel has not been
    disposed. *)
Theorem editors_are_the_undisposed extensionRoot hevs editor :
  editor ∈ _editors (host_run hevs (EditorManager_new extensionRoot))
  ↔ ∃ e, objects (host_run hevs (EditorManager_new extensionRoot)) !! editor = Some e
         ∧ _editorState e ≠ Disposed.
Proof. apply (live_set_run hevs _ (live_set_new extensionRoot)). Qed.

Lemma flag_in_step_setActiveEditor value m : flag_in_step (setActiveEditor value m).
Proof. reflexivity. Qed.

Lemma flag_in_step_step hev m : flag_in_step m → flag_in_step (host_step hev m).
Proof.
  intros Hm. destruct hev as [document panel now | editor ev].
  { apply flag_in_step_setActiveEditor. }
  cbn [host_step]. destruct (objects m !! editor) as [e|]; [|exact Hm].
  destruct ev as [b | | uri now | uri | i fs now]; try exact Hm.
  unfold manager_onDidChangeViewState.
  destruct (active _); [apply flag_in_step_setActiveEditor|].
  destruct (is_active editor _ && _); [apply flag_in_step_setActiveEditor | exact Hm].
Qed.

(** X17.  After any openings and panel events, the context flag that
    was broadcast last says whether the manager has an active editor;
    while nothing was broadcast, it has none. *)
Theorem context_flag_follows_active_editor extensionRoot hevs :
  flag_in_step (host_run hevs (EditorManager_new extensionRoot)).
Proof.
  assert (Hgen : ∀ m, flag_in_step m → flag_in_step (host_run hevs m)).
  { induction hevs as [|hev hevs IH]; intros m Hm; [exact Hm|].
    rewrite host_run_cons. apply IH, flag_in_step_step, Hm. }
  apply Hgen. reflexivity.
Qed.

(** X18.  Opening a document and then the new panel reporting that it
    is not active broadcasts [true] and then [false], and leaves the
    manager without an active editor, whichever editor was active
    before. *)
Theorem open_then_blur document panel now m :
  let m' :=
    host_run [Open document panel now;
              Panel (length (objects m)) (DidChangeViewState false)] m in
  commands m' = setContext_focus false :: setContext_focus true :: commands m
  ∧ _activeEditor m' = None.
Proof.
  intros m'. subst m'. unfold host_run. cbn [foldl].
  set (m1 := host_step (Open document panel now) m).
  assert (Hl : objects m1 !! length (objects m)
               = Some (Editor_new (manager_extensionRoot m) document panel now))
    by (apply list_lookup_middle; reflexivity).
  assert (Ha : _activeEditor m1 = Some (length (objects m))) by reflexivity.
  assert (Hc : commands m1 = setContext_focus true :: commands m) by reflexivity.
  clearbody m1. cbn [host_step]. rewrite Hl, deliver_active.
  unfold manager_onDidChangeViewState, is_active. cbn [with_objects _activeEditor].
  rewrite Ha, Nat.eqb_refl. cbn. rewrite Hc. split; reflexivity.
Qed.

(** X19.  An event on one panel leaves every other editor as it was,
    and opening a document leaves every editor there is as it was. *)
Theorem other_editors_are_untouched m other :
  (∀ editor ev, other ≠ editor →
     objects (host_step (Panel editor ev) m) !! other = objects m !! other)
  ∧ (∀ document panel now e, objects m !! other = Some e →
       objects (host_step (Open document panel now) m) !! other = Some e).
Proof.
  split.
  - intros editor ev Hne.
    destruct (objects m !! editor) as [e|] eqn:Hl.
    + rewrite (host_step_objects _ _ _ _ Hl), list_lookup_insert_ne by congruence.
      reflexivity.
    + cbn [host_step]. rewrite Hl. reflexivity.
  - intros document panel now e Hl. cbn.
    rewrite lookup_app_l; [exact Hl | eapply lookup_lt_Some, Hl].
Qed.

End ManagerInvariants.

(** ** One editor: how often the methods are entered *)

Section EditorCounts.
Context `{Host}.

Lemma deliver_render_entries ev e :
  entries CallRender (deliver ev e)
  = entries CallRender e + matching_changes (resource e) [ev].
Proof.
  unfold entries. destruct ev as [b | | uri now | uri | i fs now]; simpl.
  - open_editor e. destruct st, b; cbn; lia.
  - lia.
  - unfold onDidChange. destruct (String.eqb _ _); [|lia].
    open_editor e. destruct st; cbn; lia.
  - unfold onDidDelete. destruct (String.eqb _ _); cbn; lia.
  - unfold resume. destruct (pending e !! i) as [[|v]|]; [| |lia].
    + unfold probe_settled, promise_then.
      destruct (fs _); cbn [fst]; [|cbn; lia].
      open_editor e. destruct st, focus; cbn; lia.
    + unfold render_resume. destruct (getWebiewContents _ _ _ _); cbn; lia.
Qed.

Lemma matching_changes_cons resource ev evs :
  matching_changes resource (ev :: evs)
  = matching_changes resource [ev] + matching_changes resource evs.
Proof. destruct ev; cbn; lia. Qed.

Lemma run_render_entries evs e :
  entries CallRender (run evs e)
  = entries CallRender e + matching_changes (resource e) evs.
Proof.
  revert e. induction evs as [|ev evs IH]; intros e; [cbn; lia|].
  rewrite run_cons, IH, deliver_render_entries, (matching_changes_cons _ ev evs).
  destruct (deliver_frame ev e) as (-> & _). lia.
Qed.

(** X20.  [render] is entered once by the constructor and once for each
    change event whose URI prints as the bound resource does, and by
    nothing else: not by a view state change, not by the probe. *)
Theorem render_entered_once_per_matching_change extensionRoot resource panel now evs :
  entries CallRender (run evs (Editor_new extensionRoot resource panel now))
  = 1 + matching_changes resource evs.
Proof. rewrite run_render_entries, Editor_new_eq. reflexivity. Qed.

Lemma probes_pending_delete ts i t :
  ts !! i = Some t →
  probes_pending ts
  = probes_pending (delete i ts)
    + match t with StatProbe => 1 | Rendering _ => 0 end.
Proof.
  revert i. induction ts as [|t' ts IH]; intros i Hl; [discriminate|].
  destruct i as [|i].
  - injection Hl as ->. cbn. destruct t; lia.
  - change (delete (S i) (t' :: ts)) with (t' :: delete i ts).
    specialize (IH i Hl). destruct t'; cbn [probes_pending]; lia.
Qed.

Lemma probes_pending_app ts1 ts2 :
  probes_pending (ts1 ++ ts2) = probes_pending ts1 + probes_pending ts2.
Proof.
  induction ts1 as [|[|v] ts1 IH]; cbn; [reflexivity | rewrite IH; reflexivity | exact IH].
Qed.

(** The entries into [update] after one event: one more for a view
    state change, at most one more for a probe that leaves the queue. *)
Lemma deliver_update_entries ev e :
  (entries CallUpdate e + length (focus_values [ev])
   ≤ entries CallUpdate (deliver ev e))%nat
  ∧ (entries CallUpdate (deliver ev e) + probes_pending (pending (deliver ev e))
     ≤ entries CallUpdate e + probes_pending (pending e)
       + length (focus_values [ev]))%nat.
Proof.
  unfold entries. destruct ev as [b | | uri now | uri | i fs now]; simpl.
  - open_editor e. destruct st, b; cbn; lia.
  - lia.
  - unfold onDidChange. destruct (String.eqb _ _); [|lia].
    open_editor e. destruct st; cbn; rewrite ?probes_pending_app; cbn; lia.
  - unfold onDidDelete. destruct (String.eqb _ _); cbn; lia.
  - unfold resume. destruct (pending e !! i) as [t|] eqn:Hl; [|lia].
    rewrite (probes_pending_delete _ _ _ Hl). destruct t as [|v].
    + unfold probe_settled, promise_then.
      destruct (fs _); cbn [fst]; [|cbn; lia].
      open_editor e. destruct st, focus; cbn; lia.
    + unfold render_resume. destruct (getWebiewContents _ _ _ _); cbn; lia.
Qed.

Lemma focus_values_cons ev evs :
  length (focus_values (ev :: evs))
  = length (focus_values [ev]) + length (focus_values evs).
Proof. destruct ev; reflexivity. Qed.

Lemma run_update_entries evs e :
  (entries CallUpdate e + length (focus_values evs)
   ≤ entries CallUpdate (run evs e))%nat
  ∧ (entries CallUpdate (run evs e) + probes_pending (pending (run evs e))
     ≤ entries CallUpdate e + probes_pending (pending e)
       + length (focus_values evs))%nat.
Proof.
  revert e. induction evs as [|ev evs IH]; intros e; [cbn; lia|].
  rewrite run_cons, focus_values_cons.
  destruct (IH (deliver ev e)) as [Hlow Hhigh].
  destruct (deliver_update_entries ev e) as [Hlow1 Hhigh1]. lia.
Qed.

(** X21.  [update] is entered once by the constructor and once for each
    view state change, and at most once more: the probe settles once,
    and its callback is the only other caller. *)
Theorem update_entered_once_per_focus_change extensionRoot resource panel now evs :
  let n := entries CallUpdate (run evs (Editor_new extensionRoot resource panel now)) in
  (1 + length (focus_values evs) ≤ n ≤ 2 + length (focus_values evs))%nat.
Proof.
  intros n. subst n.
  destruct (run_update_entries evs (Editor_new extensionRoot resource panel now))
    as [Hlow Hhigh].
  rewrite Editor_new_eq in Hlow, Hhigh. cbn in Hlow, Hhigh.
  rewrite <- Editor_new_eq in Hlow, Hhigh. lia.
Qed.

End EditorCounts.

(** ** The further properties on the example host *)

Lemma suspended_render_outlives_disposal_witness :
  _editorState
    (run (H:=example_host)
       [WatcherDidChange diagram 2000; DidDispose; Resume 2 (fs_sized 7) 2001]
       example_editor) = Disposed
  ∧ html (webviewEditor
            (run (H:=example_host)
               [WatcherDidChange diagram 2000; DidDispose; Resume 2 (fs_sized 7) 2001]
               example_editor))
    = [example_page "2000" "2001"].
Proof.
  assert (Hlive : _editorState example_editor ≠ Disposed) by (intros Hd; inversion Hd).
  apply (suspended_render_outlives_disposal (H:=example_host) example_editor diagram
           2000 (fs_sized 7) 2001 (example_page "2000" "2001") eq_refl Hlive eq_refl).
Defined.

Lemma failed_size_probe_drops_render_witness :
  deliver (H:=example_host) (Resume 1 fs_missing 1001) git_editor
  = with_pending [StatProbe] git_editor.
Proof.
  apply (failed_size_probe_drops_render (H:=example_host) git_editor 1 1000
           fs_missing 1001 "FileNotFound"); reflexivity.
Defined.

Lemma getResourcePath_reads_sparingly_witness :
  getResourcePath (H:=example_host) diagram "2000" (fs_sized 7)
  = getResourcePath (H:=example_host) diagram "2000" fs_missing
  ∧ getResourcePath (H:=example_host) (git_uri "/work/order.bpmn" "ref=HEAD")
      "2000" (fs_sized 7)
    = getResourcePath (H:=example_host) (git_uri "/work/order.bpmn" "ref=HEAD")
        "2005" (fs_sized 7).
Proof.
  split.
  - destruct (getResourcePath_reads_sparingly (H:=example_host) diagram) as [Hfs _].
    apply Hfs. discriminate.
  - destruct (getResourcePath_reads_sparingly (H:=example_host)
                (git_uri "/work/order.bpmn" "ref=HEAD")) as [_ Hversion].
    apply Hversion. discriminate.
Defined.

Lemma other_editors_are_untouched_witness :
  objects (host_step (H:=example_host) (Panel 1 DidDispose) two_open) !! 0
  = objects two_open !! 0
  ∧ objects
      (host_step (H:=example_host)
         (Open extension_dir (fresh_panel false) 1700) two_open) !! 0
    = Some example_editor.
Proof.
  destruct (other_editors_are_untouched (H:=example_host) two_open 0) as [Hpanel Hopen].
  split.
  - apply Hpanel. discriminate.
  - apply Hopen. reflexivity.
Defined.
